(** * zdf-download: the decision-and-acquisition engine of [zdf_download.py]

    A shallow embedding of class [ZDFDownload] and the properties of its
    eligibility check, filename sequencer and acquisition pipeline.

    A Python [str] is modelled by the bytes of its UTF-8 form, a Stdlib
    string of 8-bit characters: a file name is the bytes the directory
    holds, and the text of the configuration and of the feed is UTF-8.
    Concatenation, equality, the search for a text and for an ASCII
    character are the same on the bytes as on the characters.  Where the
    code looks at characters that need not be ASCII, the model reads the
    characters out of the bytes: for the [\d] of the regular expressions,
    for [int], and for the order by which [sorted] sorts.  A value that
    may be [None] (the result of [entry.get]) is an [option string]. *)

From Stdlib Require Import ZArith NArith Lia Bool List Ascii String.
From Stdlib Require Import DecimalString DecimalPos DecimalN Sorted Permutation.
From stdpp Require Import gmap strings.

Local Open Scope N_scope.

(** ** Exceptions and results *)

Inductive exn : Type :=
| AttributeError      (* attribute access on None: [regex.group] after a failed match *)
| TypeError           (* a None where a str is required *)
| ValueError          (* [strptime] on text that does not fit the format *)
| FileNotFoundError   (* [os.listdir] on a folder that does not exist *)
| OSError             (* the downloader executable cannot be started *)
| CalledProcessError  (* [subprocess.run(..., check=True)] on a non-zero exit *)
| RequestException    (* any failure of [requests.get] *)
| ReError             (* [re.error]: the pattern does not compile *)
| ParserError.        (* [dateutil.parser.parse] on text that is no date *)

#[global] Instance exn_eq_dec : EqDecision exn.
Proof. solve_decision. Defined.

Inductive result (A : Type) : Type :=
| Ok (a : A)
| Raise (e : exn).
Arguments Ok {A} a.
Arguments Raise {A} e.

(** ** Python string primitives *)

Module Py.

Definition newline : ascii := "010"%char.
Definition dquote : ascii := "034"%char.

(** The ASCII digits, which are the digits [str.format] writes. *)
Definition is_digit (c : ascii) : bool :=
  (48 <=? N_of_ascii c) && (N_of_ascii c <=? 57).

(** [\w] and its complement [\W] on ASCII text, as [str] of a bytes object
    is. *)
Definition is_word (c : ascii) : bool :=
  let n := N_of_ascii c in
  is_digit c || ((65 <=? n) && (n <=? 90)) || ((97 <=? n) && (n <=? 122))
  || (n =? 95).

(** *** Characters

    The character that stands at the start of a [str], read out of its
    UTF-8 form: the code point, and how many bytes it takes after the
    first.  Bytes that are no UTF-8 (a continuation byte on its own, a
    sequence cut short, an overlong form, a surrogate, a code point beyond
    U+10FFFF) stand for no character of their own; in a file name Python
    holds each of them as a lone surrogate. *)
Definition is_continuation (b : ascii) : bool :=
  (128 <=? N_of_ascii b) && (N_of_ascii b <? 192).

Definition payload (b : ascii) : N := N_of_ascii b mod 64.

Definition utf8_head (s : string) : option (N * nat) :=
  match s with
  | EmptyString => None
  | String b0 r =>
      let n0 := N_of_ascii b0 in
      if n0 <? 128 then Some (n0, O)
      else if n0 <? 192 then None
      else if n0 <? 224 then
        match r with
        | String b1 _ =>
            let cp := (n0 - 192) * 64 + payload b1 in
            if is_continuation b1 && (128 <=? cp) then Some (cp, 1%nat) else None
        | _ => None
        end
      else if n0 <? 240 then
        match r with
        | String b1 (String b2 _) =>
            let cp := ((n0 - 224) * 64 + payload b1) * 64 + payload b2 in
            if is_continuation b1 && is_continuation b2 && (2048 <=? cp)
               && negb ((55296 <=? cp) && (cp <? 57344))
            then Some (cp, 2%nat) else None
        | _ => None
        end
      else if n0 <? 248 then
        match r with
        | String b1 (String b2 (String b3 _)) =>
            let cp := (((n0 - 240) * 64 + payload b1) * 64 + payload b2) * 64
                      + payload b3 in
            if is_continuation b1 && is_continuation b2 && is_continuation b3
               && (65536 <=? cp) && (cp <? 1114112)
            then Some (cp, 3%nat) else None
        | _ => None
        end
      else None
  end.

(** The decimal digits of the Unicode database (general category Nd;
    version 14.0, the one of CPython 3.11): the code points of the digits
    zero.  Each is followed by its digits one to nine. *)
Definition decimal_zeros : list N :=
  [48; 1632; 1776; 1984; 2406; 2534; 2662; 2790; 2918; 3046; 3174; 3302;
   3430; 3558; 3664; 3792; 3872; 4160; 4240; 6112; 6160; 6470; 6608; 6784;
   6800; 6992; 7088; 7232; 7248; 42528; 43216; 43264; 43472; 43504; 43600;
   44016; 65296; 66720; 68912; 69734; 69872; 69942; 70096; 70384; 70736;
   70864; 71248; 71360; 71472; 71904; 72016; 72784; 73040; 73120; 92768;
   92864; 93008; 120782; 120792; 120802; 120812; 120822; 123200; 123632;
   125264; 130032].

(** The value of a character as a decimal digit, if it is one. *)
Definition decimal_value (cp : N) : option N :=
  option_map (N.sub cp)
    (List.find (fun zero => (zero <=? cp) && (cp <? zero + 10)) decimal_zeros).

(** [\d] at the start of [s]: the value of the digit that stands there and
    the number of bytes it takes after its first. *)
Definition decimal_head (s : string) : option (N * nat) :=
  match utf8_head s with
  | Some (cp, more) => option_map (fun v => (v, more)) (decimal_value cp)
  | None => None
  end.

(** The longest run of decimal digits at the start of [s], and what
    follows it; [pending] bytes at the start of [s] belong to a digit
    whose first byte has been taken. *)
Fixpoint span_decimal_from (pending : nat) (s : string) : string * string :=
  match s with
  | EmptyString => (EmptyString, EmptyString)
  | String b s' =>
      match pending with
      | S k => let (run, tl) := span_decimal_from k s' in (String b run, tl)
      | O =>
          match decimal_head s with
          | Some (_, more) =>
              let (run, tl) := span_decimal_from more s' in (String b run, tl)
          | None => (EmptyString, s)
          end
      end
  end.

Definition span_decimal (s : string) : string * string := span_decimal_from 0 s.

(** [int(s)] on the text of a [\d+] group, most significant digit first:
    every decimal digit of Unicode counts with its value.  The module
    applies [int] to such groups and to the literal 00 only; they come out
    of file names, which are far shorter than the 4300 digits beyond
    which [int] refuses a text. *)
Fixpoint int_from (pending : nat) (acc : N) (s : string) : N :=
  match s with
  | EmptyString => acc
  | String _ s' =>
      match pending with
      | S k => int_from k acc s'
      | O =>
          match decimal_head s with
          | Some (v, more) => int_from more (10 * acc + v) s'
          | None => acc
          end
      end
  end.

Definition int (s : string) : N := int_from 0 0 s.

(** [str(n)]: the decimal numeral of [n]. *)
Definition str (n : N) : string := NilEmpty.string_of_uint (N.to_uint n).

Fixpoint zeros (k : nat) : string :=
  match k with
  | O => EmptyString
  | S k' => String "0" (zeros k')
  end.

(** The format field [{:0>2d}]: right-aligned in width 2, filled with 0. *)
Definition format_02d (n : N) : string :=
  let s := str n in zeros (2 - String.length s) +:+ s.

(** [sub in s] *)
Fixpoint contains (sub s : string) : bool :=
  String.prefix sub s
  || match s with
     | EmptyString => false
     | String _ s' => contains sub s'
     end.

(** The characters of a [str], read from its bytes.  A byte of a file
    name that is no UTF-8 is the lone surrogate U+DC00 + byte in the [str]
    [os.listdir] returns (the error handler [surrogateescape]). *)
Fixpoint code_points_from (pending : nat) (s : string) : list N :=
  match s with
  | EmptyString => []
  | String b s' =>
      match pending with
      | S k => code_points_from k s'
      | O =>
          match utf8_head s with
          | Some (cp, more) => cp :: code_points_from more s'
          | None => (56320 + N_of_ascii b) :: code_points_from 0 s'
          end
      end
  end.

Definition code_points (s : string) : list N := code_points_from 0 s.

(** [a <= b] on [str]: the first character in which the two differ decides,
    by its code point; a proper prefix comes first. *)
Fixpoint code_points_leb (a b : list N) : bool :=
  match a, b with
  | [], _ => true
  | _ :: _, [] => false
  | x :: a', y :: b' => (x <? y) || ((x =? y) && code_points_leb a' b')
  end.

Definition str_leb (a b : string) : bool :=
  code_points_leb (code_points a) (code_points b).

(** [sorted(l)] on strings: ascending in the order of [str].  The order is
    total and antisymmetric, so the sorted list does not depend on the
    sorting algorithm. *)
Fixpoint insert_sorted (x : string) (l : list string) : list string :=
  match l with
  | [] => [x]
  | y :: l' => if str_leb x y then x :: y :: l' else y :: insert_sorted x l'
  end.

Fixpoint sorted (l : list string) : list string :=
  match l with
  | [] => []
  | x :: l' => insert_sorted x (sorted l')
  end.

(** [s.rfind(c)] for a single character: the index of its last occurrence. *)
Fixpoint rfind (c : ascii) (s : string) : option nat :=
  match s with
  | EmptyString => None
  | String a s' =>
      match rfind c s' with
      | Some i => Some (S i)
      | None => if Ascii.eqb a c then Some O else None
      end
  end.

Fixpoint all_chars (p : ascii -> bool) (s : string) : bool :=
  match s with
  | EmptyString => true
  | String a s' => p a && all_chars p s'
  end.

Definition nonempty (s : string) : bool :=
  match s with
  | EmptyString => false
  | String _ _ => true
  end.

(** [os.path.splitext(p)[0]] (posixpath): the extension starts at the last
    dot, unless that dot comes before the last slash or only dots stand
    between the last slash and it. *)
Definition splitext_root (p : string) : string :=
  match rfind "." p with
  | None => p
  | Some dot =>
      let start := match rfind "/" p with Some sep => S sep | None => O end in
      if (start <=? dot)%nat
         && negb (all_chars (Ascii.eqb ".") (String.substring start (dot - start) p))
      then String.substring 0 dot p
      else p
  end.

(** *** The regular expressions of the module

    The patterns are matched as the backtracking matcher of [re] does:
    a greedy [.*] first takes as many characters as it can (none of them a
    line break) and gives them back one at a time until the rest of the
    pattern matches. *)

Fixpoint dotstar {A : Type} (rest : string -> option A) (s : string) : option A :=
  match s with
  | EmptyString => rest EmptyString
  | String c s' =>
      match (if Ascii.eqb c newline then None else dotstar rest s') with
      | Some r => Some r
      | None => rest s
      end
  end.

(** The longest run of characters satisfying [p] at the start of [s], and
    what follows it. *)
Fixpoint span (p : ascii -> bool) (s : string) : string * string :=
  match s with
  | EmptyString => (EmptyString, EmptyString)
  | String c s' =>
      if p c then let (run, tl) := span p s' in (String c run, tl)
      else (EmptyString, s)
  end.

(** [S(\d+)E(\d+)] at the start of [s]: the two groups.  Each [\d+] can
    only stand for the whole run of decimal digits: a shorter one is
    followed by a digit, where the pattern wants [E] or ends. *)
Definition match_SdEd (s : string) : option (string * string) :=
  match s with
  | String "S" r =>
      match span_decimal r with
      | (String d ds, String "E" r') =>
          match span_decimal r' with
          | (String e es, _) => Some (String d ds, String e es)
          | _ => None
          end
      | _ => None
      end
  | _ => None
  end.

(** [re.match] with the pattern [^(.* )S(\d+)E(\d+)] of [find_filename]:
    [None] when there is no match, else groups 2 and 3 (group 1 is never
    read). *)
Definition match_filename (s : string) : option (string * string) :=
  dotstar (fun t => match t with
                    | String " " r => match_SdEd r
                    | _ => None
                    end) s.

(** [re.match] with the pattern [.*S(\d+)E(\d+)] of [write_nfo]: groups 1
    and 2. *)
Definition match_season_episode (s : string) : option (string * string) :=
  dotstar match_SdEd s.

Fixpoint strip_prefix (lit s : string) : option string :=
  match lit, s with
  | EmptyString, _ => Some s
  | String a lit', String b s' => if Ascii.eqb a b then strip_prefix lit' s' else None
  | String _ _, EmptyString => None
  end.

(** [(.+?)] followed by a double quote, after the first character of the
    group has been taken: the group ends at the first double quote, and no
    line break may come before it. *)
Fixpoint lazy_until_quote (s : string) : option string :=
  match s with
  | EmptyString => None
  | String c s' =>
      if Ascii.eqb c dquote then Some EmptyString
      else if Ascii.eqb c newline then None
      else option_map (String c) (lazy_until_quote s')
  end.

Definition og_image_literal : string :=
  "<meta property=" +:+ String dquote "og:image" +:+ String dquote EmptyString.

Definition content_literal : string := "content=" +:+ String dquote EmptyString.

(** [re.match] with the pattern of [save_thumb]: [.*], the literal
    [<meta property=] with [og:image] in double quotes, [\W+], the literal
    [content=] with an opening double quote, the group [(.+?)] and the
    closing double quote; the result is group 1.  [\W+] can only stand for
    the whole run of non-word characters, since [content] starts with a
    word character. *)
Definition match_og_image (s : string) : option string :=
  dotstar (fun t =>
    match strip_prefix og_image_literal t with
    | None => None
    | Some r =>
        match span (fun c => negb (is_word c)) r with
        | (String _ _, r1) =>
            match strip_prefix content_literal r1 with
            | Some (String c r2) =>
                if Ascii.eqb c newline then None
                else option_map (String c) (lazy_until_quote r2)
            | _ => None
            end
        | _ => None
        end
    end) s.

End Py.

(** ** Data model *)

(** Modelled from the spec: the classes of the configuration module
    ([DownloadConfiguration], the filter block and [ShowConfiguration]),
    which the source imports and reads by attribute: a download folder and
    a filename prefix; an optional filter with a regex, the entry field it
    applies to and a minimum date; a feed url. *)
Record DownloadConfiguration : Type := {
  folder : string;
  filename : string
}.

Record FilterConfiguration : Type := {
  regex : option string;
  regex_field : option string;
  min_date : option string
}.

Record ShowConfiguration : Type := {
  feed_url : string;
  download : DownloadConfiguration;
  filter : option FilterConfiguration
}.

(** A feed entry: the dictionary of text fields [entry.get] reads. *)
Abbreviation entry := (gmap string string).

(** The file system as the module sees it: for each folder that exists,
    the names [os.listdir] returns, in any order. *)
Abbreviation filesystem := (gmap string (list string)).

(** ** The filename sequencer *)

(** [datetime.strftime(datetime.now(), '%y')]: the year without century,
    two digits. *)
Definition season_token (year : N) : string := Py.format_02d (year mod 100).

(** The lambda of [find_filename]: the prefix and [.mp4] both occur in the
    name. *)
Definition is_episode_file (download : DownloadConfiguration) (name : string) : bool :=
  Py.contains (filename download) name && Py.contains ".mp4" name.

Definition episode_files (download : DownloadConfiguration) (listing : list string)
  : list string :=
  List.filter (is_episode_file download) (Py.sorted listing).

(** The body of [find_filename] once the folder has been listed and the
    clock read. *)
Definition next_filename (download : DownloadConfiguration) (season : string)
    (listing : list string) : result string :=
  match last (episode_files download listing) with
  | Some newest =>
      let newest_filename := Py.splitext_root newest in
      match Py.match_filename newest_filename with
      | None => Raise AttributeError
      | Some (group2, group3) =>
          let filename_number :=
            if String.eqb season group2 then group3 else "00" in
          let new_episode_number := Py.int filename_number + 1 in
          Ok (filename download +:+ " S" +:+ season +:+ "E"
              +:+ Py.format_02d new_episode_number)
      end
  | None => Ok (filename download +:+ " S" +:+ season +:+ "E01")
  end.

Definition find_filename (fs : filesystem) (year : N)
    (download : DownloadConfiguration) : result string :=
  match fs !! folder download with
  | None => Raise FileNotFoundError
  | Some listing => next_filename download (season_token year) listing
  end.


(** [str(b)] for a bytes object [b]: its literal, as [save_thumb] feeds it
    to the regular expression.  Single quotes delimit it unless the bytes
    hold a single quote and no double quote. *)
Module Bytes.

Definition hex_digit (n : N) : ascii :=
  ascii_of_N (if n <? 10 then 48 + n else 87 + n).

Definition repr_byte (quote c : ascii) : string :=
  let n := N_of_ascii c in
  if Ascii.eqb c quote || Ascii.eqb c "\" then String "\" (String c EmptyString)
  else if n =? 9 then "\t"
  else if n =? 10 then "\n"
  else if n =? 13 then "\r"
  else if (n <? 32) || (127 <=? n)
       then "\x" +:+ String (hex_digit (n / 16)) (String (hex_digit (n mod 16)) EmptyString)
  else String c EmptyString.

Fixpoint repr_body (quote : ascii) (b : string) : string :=
  match b with
  | EmptyString => EmptyString
  | String c b' => repr_byte quote c +:+ repr_body quote b'
  end.

Definition repr (b : string) : string :=
  let quote :=
    if Py.contains "'" b && negb (Py.contains (String Py.dquote EmptyString) b)
    then Py.dquote else "'"%char in
  String "b" (String quote (repr_body quote b +:+ String quote EmptyString)).

End Bytes.

(** [os.path.join(a, b)] (posixpath) *)
Definition path_join (a b : string) : string :=
  match b with
  | String "/" _ => b
  | _ =>
      if String.eqb a EmptyString
         || String.eqb (String.substring (String.length a - 1) 1 a) "/"
      then a +:+ b
      else a +:+ "/" +:+ b
  end.

(** ** The world and the collaborators *)

Inductive log_level : Type := Debug | Info | Error.

(** What [requests.get] returns: [.text] and [.content]. *)
Record response : Type := {
  text : string;
  content : string
}.

(** A parsed date: whether it carries a time zone, and the instant.
    Comparing an aware with a naive [datetime] raises [TypeError]. *)
Record datetime : Type := {
  aware : bool;
  instant : Z
}.

(** How a subprocess ends: it exits with a code, or it cannot be started. *)
Inductive proc_outcome : Type :=
| Exited (code : Z)
| NotStarted.

(** The calls the module makes, in the order it makes them. *)
Inductive event : Type :=
| EvEntry (e : entry)                          (* [should_download] is entered *)
| EvFeed (url : string)                        (* [feedparser.parse] *)
| EvSearch (pattern : string) (subject : option string)   (* [re.search] *)
| EvParseDate (subject : option string)        (* [dateutil.parser.parse] *)
| EvGet (url : option string)                  (* [requests.get] *)
| EvPrint (line : string)                      (* [print] *)
| EvWrite (path : string) (data : string)      (* a file opened and written *)
| EvRun (argv : list string) (outcome : proc_outcome)     (* [subprocess.run] *)
| EvLog (level : log_level) (template : string) (args : list (option string)).

(** The entries [should_download] was entered with, the feeds parsed, the
    pages requested, and whether a call writes a file or runs the
    downloader. *)
Definition entry_of (ev : event) : option entry :=
  match ev with EvEntry e => Some e | _ => None end.


Definition is_request (ev : event) : bool :=
  match ev with EvGet _ => true | _ => false end.

Definition is_write (ev : event) : bool :=
  match ev with EvWrite _ _ => true | _ => false end.

Definition is_run (ev : event) : bool :=
  match ev with EvRun _ _ => true | _ => false end.

Definition is_library_call (ev : event) : bool :=
  match ev with EvSearch _ _ | EvParseDate _ => true | _ => false end.

Definition entries_seen (tr : list event) : list entry := omap entry_of tr.


(** Modelled from the spec: class [History] of the history module, a set of
    previously downloaded links with a membership test and an idempotent
    add.  The keys are the values the source passes: a link or [None]. *)
Module History.

Definition t : Type := gset (option string).

Definition is_in_history (h : t) (link : option string) : bool :=
  bool_decide (link ∈ h).

Definition add_to_history (h : t) (link : option string) : t := {[ link ]} ∪ h.

End History.

Record world : Type := {
  history : History.t;
  files : filesystem;
  trace : list event
}.

(** The collaborators.  The network, the clock and the downloader may
    answer differently as time passes: they are given the trace so far. *)
Record collaborators : Type := {
  feedparser_parse : list event -> string -> list entry;
  requests_get : list event -> string -> result response;
  now_year : list event -> N;
  youtube_dl : list event -> list string -> filesystem -> proc_outcome * filesystem;
  (* [open(path, mode)] and [write]: the file system after the write *)
  os_write : filesystem -> string -> string -> result filesystem;
  (* [re.compile]: [None] when the pattern is not a regular expression,
     else whether it is found in a text *)
  re_compile : string -> option (string -> bool);
  dateutil_parse : string -> result datetime;
  (* [datetime.strptime(s, '%a, %d %b %Y %H:%M:%S %z').strftime('%Y-%m-%d')] *)
  strptime_aired : string -> result string
}.

(** ** A state and exception monad *)

Definition M (A : Type) : Type := world -> result A * world.

Definition ret {A : Type} (a : A) : M A := fun w => (Ok a, w).

Definition raise {A : Type} (e : exn) : M A := fun w => (Raise e, w).

Definition bind {A B : Type} (m : M A) (k : A -> M B) : M B :=
  fun w =>
    match m w with
    | (Ok a, w') => k a w'
    | (Raise e, w') => (Raise e, w')
    end.

Notation "'let*' x ':=' m 'in' k" := (bind m (fun x => k))
  (at level 10, x pattern, m at level 100, k at level 200).
Notation "m ';;' k" := (bind m (fun _ => k))
  (at level 100, k at level 200, right associativity).

Definition lift {A : Type} (r : result A) : M A := fun w => (r, w).

(** The world after one more call has been recorded. *)
Definition record (ev : event) (w : world) : world :=
  {| history := history w; files := files w; trace := trace w ++ [ev] |}.

Definition emit (ev : event) : M unit := fun w => (Ok tt, record ev w).

(** [try: body except e: handler] *)
Definition try_except {A : Type} (body : M A) (e : exn) (handler : M A) : M A :=
  fun w =>
    match body w with
    | (Raise e', w') => if decide (e' = e) then handler w' else (Raise e', w')
    | ok => ok
    end.

(** [for x in l: body(x)] *)
Fixpoint for_each {A : Type} (body : A -> M unit) (l : list A) : M unit :=
  match l with
  | [] => ret tt
  | x :: l' => body x ;; for_each body l'
  end.

(** ** Calls into the collaborators *)

Section ZDFDownload.

Variable c : collaborators.

(** [log.debug], [log.info], [log.error] *)
Definition log (level : log_level) (template : string) (args : list (option string))
  : M unit :=
  emit (EvLog level template args).

Definition quoted_s : string :=
  String Py.dquote ("%s" +:+ String Py.dquote EmptyString).

(** [self.history.is_in_history(link)] *)
Definition is_in_history (link : option string) : M bool :=
  fun w => (Ok (History.is_in_history (history w) link), w).

(** [self.history.add_to_history(link)] *)
Definition add_to_history (link : option string) : M unit :=
  fun w => (Ok tt, {| history := History.add_to_history (history w) link;
                      files := files w; trace := trace w |}).

(** [re.search(pattern, subject)]: the pattern is compiled first; a subject
    that is [None] raises [TypeError]. *)
Definition re_search (pattern : string) (subject : option string) : M bool :=
  emit (EvSearch pattern subject) ;;
  match re_compile c pattern with
  | None => raise ReError
  | Some found =>
      match subject with
      | None => raise TypeError
      | Some s => ret (found s)
      end
  end.

(** [parser.parse(subject)] *)
Definition parser_parse (subject : option string) : M datetime :=
  emit (EvParseDate subject) ;;
  match subject with
  | None => raise TypeError
  | Some s => lift (dateutil_parse c s)
  end.

(** [a < b] on two [datetime] values *)
Definition datetime_lt (a b : datetime) : M bool :=
  if Bool.eqb (aware a) (aware b) then ret (instant a <? instant b)%Z
  else raise TypeError.

(** [requests.get(url)]; without a url the request cannot be prepared. *)
Definition get (url : option string) : M response :=
  fun w =>
    match url with
    | None => (Raise RequestException, record (EvGet url) w)
    | Some u => (requests_get c (trace w) u, record (EvGet url) w)
    end.

(** [with open(path, mode) as f: f.write(data)] *)
Definition write_file (path data : string) : M unit :=
  fun w =>
    match os_write c (files w) path data with
    | Raise e => (Raise e, w)
    | Ok fs' => (Ok tt, {| history := history w; files := fs';
                           trace := trace w ++ [EvWrite path data] |})
    end.

(** [subprocess.run(argv, check=True)] *)
Definition subprocess_run_check (argv : list string) : M unit :=
  fun w =>
    let (outcome, fs') := youtube_dl c (trace w) argv (files w) in
    let w' := {| history := history w; files := fs';
                 trace := trace w ++ [EvRun argv outcome] |} in
    match outcome with
    | Exited 0 => (Ok tt, w')
    | Exited _ => (Raise CalledProcessError, w')
    | NotStarted => (Raise OSError, w')
    end.

(** Truth value of a configuration string that may be unset. *)
Definition truthy (o : option string) : bool :=
  match o with
  | Some (String _ _) => true
  | _ => false
  end.

(** [str.format] of a value that may be [None] *)
Definition format_value (o : option string) : string :=
  match o with
  | Some s => s
  | None => "None"
  end.

(** ** class [ZDFDownload] *)

(** [is_episode_released] *)
Definition is_episode_released (url : option string) : M bool :=
  let* result := get url in
  ret (Py.contains "verfügbar bis" (text result)).

(** [should_download] *)
Definition should_download (e : entry) (show_config : ShowConfiguration) : M bool :=
  emit (EvEntry e) ;;
  let* known := is_in_history (e !! "link") in
  if known then
    log Debug ("episode " +:+ quoted_s +:+ " is in history") [e !! "title"] ;;
    ret false
  else
    match filter show_config with
    | None => ret true
    | Some show_filter =>
        let regex := regex show_filter in
        let regex_field := regex_field show_filter in
        let* no_fit :=
          if truthy regex && truthy regex_field
          then let* found := re_search (default EmptyString regex)
                               (e !! default EmptyString regex_field) in
               ret (negb found)
          else ret false in
        if no_fit then
          log Debug ("episode " +:+ quoted_s +:+ " does not fit regex") [e !! "title"] ;;
          ret false
        else
          let* too_old :=
            if truthy (min_date show_filter)
            then let* min_date := parser_parse (min_date show_filter) in
                 let* entry_date := parser_parse (e !! "published") in
                 datetime_lt entry_date min_date
            else ret false in
          if too_old then
            log Debug ("episode " +:+ quoted_s +:+ " is before mindate") [e !! "title"] ;;
            ret false
          else
            let* released := is_episode_released (e !! "link") in
            if negb released then
              log Debug ("episode " +:+ quoted_s +:+ " is not yet released")
                [e !! "title"] ;;
              ret false
            else ret true
    end.

(** [find_filename], reading the folder and the clock of the world *)
Definition find_filename_now (download : DownloadConfiguration) : M string :=
  fun w => (find_filename (files w) (now_year c (trace w)) download, w).

(** [download_episode] *)
Definition download_episode (url : option string) (download : DownloadConfiguration)
  : M unit :=
  let* filename := find_filename_now download in
  let download_path := folder download +:+ "/" +:+ filename +:+ ".%(ext)s" in
  try_except
    (match url with
     | None => raise TypeError
     | Some u => subprocess_run_check ["youtube-dl"; u; "-o"; download_path]
     end ;;
     add_to_history url)
    CalledProcessError
    (log Error "error downloading %s" [url]).

(** [write_nfo] *)
Definition nfo_document (plot title : option string) (aired : string) (season episode : N)
  : string :=
  let q := String Py.dquote EmptyString in
  let nl := String Py.newline EmptyString in
  "<?xml version=" +:+ q +:+ "1.0" +:+ q +:+ " encoding=" +:+ q +:+ "utf-8" +:+ q
  +:+ " standalone=" +:+ q +:+ "yes" +:+ q +:+ "?>" +:+ nl
  +:+ "<episodedetails>" +:+ nl
  +:+ "  <plot>" +:+ format_value plot +:+ "</plot>" +:+ nl
  +:+ "  <title>" +:+ format_value title +:+ "</title>" +:+ nl
  +:+ "  <aired>" +:+ aired +:+ "</aired>" +:+ nl
  +:+ "  <season>" +:+ Py.str season +:+ "</season>" +:+ nl
  +:+ "  <episode>" +:+ Py.str episode +:+ "</episode>" +:+ nl
  +:+ "</episodedetails>".

Definition write_nfo (e : entry) (download : DownloadConfiguration) : M unit :=
  let* filename := find_filename_now download in
  let title := e !! "title" in
  let plot := e !! "description" in
  let* aired :=
    match e !! "published" with
    | None => raise TypeError
    | Some published => lift (strptime_aired c published)
    end in
  match Py.match_season_episode filename with
  | None => raise AttributeError
  | Some (group1, group2) =>
      let season := Py.int group1 in
      let episode := Py.int group2 in
      write_file (path_join (folder download) filename +:+ ".nfo")
        (nfo_document plot title aired season episode)
  end.

(** [save_thumb] *)
Definition save_thumb (e : entry) (download : DownloadConfiguration) : M unit :=
  let* filename := find_filename_now download in
  let* html := get (e !! "link") in
  match Py.match_og_image (Bytes.repr (content html)) with
  | None => raise AttributeError
  | Some thumb_url =>
      emit (EvPrint thumb_url) ;;
      let* thumb := get (Some thumb_url) in
      write_file (path_join (folder download) filename +:+ "-thumb.jpg") (content thumb)
  end.

(** The body of the loop of [check_show] *)
Definition check_entry (show : ShowConfiguration) (e : entry) : M unit :=
  let* wanted := should_download e show in
  if wanted then
    log Info "downloading episode %s: %s" [e !! "title"; e !! "link"] ;;
    save_thumb e (download show) ;;
    write_nfo e (download show) ;;
    download_episode (e !! "link") (download show)
  else ret tt.

(** [check_show] *)
Definition check_show (show : ShowConfiguration) : M unit :=
  let* entries :=
    (fun w => (Ok (feedparser_parse c (trace w) (feed_url show)),
               record (EvFeed (feed_url show)) w)) in
  let entries := rev entries in
  for_each (check_entry show) entries.

(** [check_all_shows] *)
Definition check_all_shows (shows : list ShowConfiguration) : M unit :=
  log Info "checking all shows" [] ;;
  for_each check_show shows ;;
  log Info "finished checking all shows" [].

End ZDFDownload.

(** ** The sequencer called again and again

    One round calls [find_filename] and then creates the media file of the
    returned name in the folder, as a download in mp4 format does. *)

Definition create_file (name : string) (listing : list string) : list string :=
  if decide (name ∈ listing) then listing else name :: listing.

Fixpoint sequencer_rounds (n : nat) (year : N) (download : DownloadConfiguration)
    (fs : filesystem) : result (list string) :=
  match n with
  | O => Ok []
  | S n' =>
      match find_filename fs year download with
      | Raise e => Raise e
      | Ok name =>
          let listing := default [] (fs !! folder download) in
          let fs' := <[ folder download := create_file (name +:+ ".mp4") listing ]> fs in
          match sequencer_rounds n' year download fs' with
          | Raise e => Raise e
          | Ok names => Ok (name :: names)
          end
      end
  end.

(** The name the sequencer gives episode [k] of a season. *)
Definition numbered (download : DownloadConfiguration) (season : string) (k : N) : string :=
  filename download +:+ " S" +:+ season +:+ "E" +:+ Py.format_02d k.

(** The naming pattern as the specification words it: the prefix, a blank,
    S, the digits of a season, E, the digits of an episode, and nothing
    else. *)
Definition conforms_to_pattern (prefix stem : string) : bool :=
  match Py.strip_prefix (prefix +:+ " S") stem with
  | None => false
  | Some r =>
      match Py.span Py.is_digit r with
      | (String _ _, String "E" r') =>
          match Py.span Py.is_digit r' with
          | (String _ _, EmptyString) => true
          | _ => false
          end
      | _ => false
      end
  end.

(** The numbers [start], [start + 1], ... ([len] of them). *)
Fixpoint N_seq (start : N) (len : nat) : list N :=
  match len with
  | O => []
  | S len' => start :: N_seq (start + 1) len'
  end.

(** The folder states from which the sequencer counts on: no episode file
    yet ([k = 0]), or the episode file that sorts last is the one the
    sequencer named for episode [k] of the season, with [k] below 100. *)
Definition counted_up_to (download : DownloadConfiguration) (season : string)
    (listing : list string) (k : N) : Prop :=
  (k = 0 /\ episode_files download listing = [])
  \/ (k < 100
      /\ last (episode_files download listing)
         = Some (numbered download season k +:+ ".mp4")).

(** ** Vocabulary of the properties *)

(** The order [sorted] sorts by. *)
Definition string_le (a b : string) : Prop := Py.str_leb a b = true.

(** The UTF-8 form of a character; the lone surrogates U+DC80 to U+DCFF
    stand for the byte they escape. *)
Definition utf8_char (cp : N) : string :=
  if cp <? 128 then String (ascii_of_N cp) EmptyString
  else if cp <? 2048 then
    String (ascii_of_N (192 + cp / 64))
      (String (ascii_of_N (128 + cp mod 64)) EmptyString)
  else if (56448 <=? cp) && (cp <? 56576) then
    String (ascii_of_N (cp - 56320)) EmptyString
  else if cp <? 65536 then
    String (ascii_of_N (224 + cp / 4096))
      (String (ascii_of_N (128 + (cp / 64) mod 64))
         (String (ascii_of_N (128 + cp mod 64)) EmptyString))
  else
    String (ascii_of_N (240 + cp / 262144))
      (String (ascii_of_N (128 + (cp / 4096) mod 64))
         (String (ascii_of_N (128 + (cp / 64) mod 64))
            (String (ascii_of_N (128 + cp mod 64)) EmptyString))).

Fixpoint utf8 (l : list N) : string :=
  match l with
  | [] => EmptyString
  | cp :: l' => utf8_char cp +:+ utf8 l'
  end.

(** The ways in which a character stands at the start of a text. *)
Inductive head_shape : string -> N -> nat -> Prop :=
| head_1 (b0 : ascii) (r : string) :
    N_of_ascii b0 < 128 ->
    head_shape (String b0 r) (N_of_ascii b0) 0
| head_2 (b0 b1 : ascii) (r : string) (cp : N) :
    192 <= N_of_ascii b0 < 224 -> 128 <= N_of_ascii b1 < 192 ->
    cp = (N_of_ascii b0 - 192) * 64 + (N_of_ascii b1 - 128) ->
    128 <= cp ->
    head_shape (String b0 (String b1 r)) cp 1
| head_3 (b0 b1 b2 : ascii) (r : string) (cp : N) :
    224 <= N_of_ascii b0 < 240 -> 128 <= N_of_ascii b1 < 192 ->
    128 <= N_of_ascii b2 < 192 ->
    cp = ((N_of_ascii b0 - 224) * 64 + (N_of_ascii b1 - 128)) * 64
         + (N_of_ascii b2 - 128) ->
    2048 <= cp -> (cp < 55296 \/ 57344 <= cp) ->
    head_shape (String b0 (String b1 (String b2 r))) cp 2
| head_4 (b0 b1 b2 b3 : ascii) (r : string) (cp : N) :
    240 <= N_of_ascii b0 < 248 -> 128 <= N_of_ascii b1 < 192 ->
    128 <= N_of_ascii b2 < 192 -> 128 <= N_of_ascii b3 < 192 ->
    cp = (((N_of_ascii b0 - 240) * 64 + (N_of_ascii b1 - 128)) * 64
          + (N_of_ascii b2 - 128)) * 64 + (N_of_ascii b3 - 128) ->
    65536 <= cp < 1114112 ->
    head_shape (String b0 (String b1 (String b2 (String b3 r)))) cp 3.

(** What ends a run of digits: the end of the text, or an ASCII character
    that is no digit. *)
Definition ends_digits (tl : string) : bool :=
  match tl with
  | EmptyString => true
  | String x _ => (N_of_ascii x <? 128) && negb (Py.is_digit x)
  end.

(** [m] leaves the trace it finds in place and appends calls that all
    satisfy [P]. *)
Definition appends {A : Type} (P : event -> Prop) (m : M A) : Prop :=
  forall w r w', m w = (r, w') ->
    exists new, trace w' = trace w ++ new /\ Forall P new.

Definition demo : DownloadConfiguration := {| folder := "dl"; filename := "Demo" |}.

(** ** A concrete world for the examples *)

Module Demo.

Definition q : string := String Py.dquote EmptyString.

(** A page that carries the thumbnail tag and the availability marker. *)
Definition page : string :=
  "<html><meta property=" +:+ q +:+ "og:image" +:+ q +:+ " content=" +:+ q
  +:+ "https://x/1.jpg" +:+ q +:+ ">verfügbar bis 2025</html>".

(** A page with neither. *)
Definition bare_page : string := "<html>soon</html>".

Definition split_path (path : string) : string * string :=
  match Py.rfind "/" path with
  | Some i => (String.substring 0 i path,
               String.substring (S i) (String.length path - S i) path)
  | None => (EmptyString, path)
  end.

Definition add_file (fs : filesystem) (path : string) : result filesystem :=
  let (dir, base) := split_path path in
  match fs !! dir with
  | Some listing => Ok (<[ dir := create_file base listing ]> fs)
  | None => Raise FileNotFoundError
  end.

(** The downloader of the examples: it exits with [code]; on 0 it has
    written the media file, with mp4 for the extension of the template. *)
Definition downloader (code : Z) (argv : list string) (fs : filesystem)
  : proc_outcome * filesystem :=
  match argv with
  | [_; _; _; template] =>
      let stem := String.substring 0 (String.length template - 8) template in
      match (if (code =? 0)%Z then add_file fs (stem +:+ ".mp4") else Ok fs) with
      | Ok fs' => (Exited code, fs')
      | Raise _ => (Exited 1, fs)
      end
  | _ => (Exited 2, fs)
  end.

(** The dates of the examples.  [stamp] reads the form in which a feed
    gives the publication date, as in [Wed, 10 Jan 2024 10:00:00 +0000], and
    [plain_date] a plain date as in [2024-02-01]; on text of these two
    forms the date stubs below answer as the libraries do, other text they
    refuse. *)
Definition weekdays : list string := ["Mon"; "Tue"; "Wed"; "Thu"; "Fri"; "Sat"; "Sun"].

Definition months : list string :=
  ["Jan"; "Feb"; "Mar"; "Apr"; "May"; "Jun"; "Jul"; "Aug"; "Sep"; "Oct"; "Nov"; "Dec"].

Fixpoint position (x : string) (l : list string) : option N :=
  match l with
  | [] => None
  | y :: l' => if String.eqb x y then Some 1 else option_map N.succ (position x l')
  end.

Definition number (s : string) : option N :=
  if Py.nonempty s && Py.all_chars Py.is_digit s then Some (Py.int s) else None.

Definition is_leap (y : N) : bool :=
  ((y mod 4 =? 0) && negb (y mod 100 =? 0)) || (y mod 400 =? 0).

Definition days_in_month (y m : N) : N :=
  if m =? 2 then (if is_leap y then 29 else 28)
  else if (m =? 4) || (m =? 6) || (m =? 9) || (m =? 11) then 30
  else 31.

Definition valid_date (y m d : N) : bool :=
  (1 <=? y) && (1 <=? m) && (m <=? 12) && (1 <=? d) && (d <=? days_in_month y m).

(** Days from the first of March of the year 0 to a date. *)
Definition days_from_civil (y m d : Z) : Z :=
  let y' := if (m <=? 2)%Z then (y - 1)%Z else y in
  let m' := if (m <=? 2)%Z then (m + 9)%Z else (m - 3)%Z in
  (365 * y' + y' / 4 - y' / 100 + y' / 400 + (153 * m' + 2) / 5 + d - 1)%Z.

(** [s[i:i+n]] *)
Definition slice (s : string) (i n : nat) : string := String.substring i n s.

(** Year, month, day, second of the day and offset from UTC in seconds. *)
Definition stamp (s : string) : option (N * N * N * N * Z) :=
  if (String.length s =? 31)%nat
     && String.eqb (slice s 3 2) ", " && String.eqb (slice s 7 1) " "
     && String.eqb (slice s 11 1) " " && String.eqb (slice s 16 1) " "
     && String.eqb (slice s 19 1) ":" && String.eqb (slice s 22 1) ":"
     && String.eqb (slice s 25 1) " "
     && (String.eqb (slice s 26 1) "+" || String.eqb (slice s 26 1) "-")
  then
    match position (slice s 0 3) weekdays, number (slice s 5 2), position (slice s 8 3) months,
          number (slice s 12 4), number (slice s 17 2), number (slice s 20 2),
          number (slice s 23 2), number (slice s 27 2), number (slice s 29 2) with
    | Some _, Some d, Some m, Some y, Some hh, Some mi, Some ss, Some zh, Some zm =>
        if valid_date y m d && (hh <? 24) && (mi <? 60) && (ss <? 60)
           && (zh <? 24) && (zm <? 60)
        then
          let offset := Z.of_N (zh * 3600 + zm * 60) in
          Some (y, m, d, hh * 3600 + mi * 60 + ss,
                if String.eqb (slice s 26 1) "-" then (- offset)%Z else offset)
        else None
    | _, _, _, _, _, _, _, _, _ => None
    end
  else None.

Definition plain_date (s : string) : option (N * N * N) :=
  if (String.length s =? 10)%nat
     && String.eqb (slice s 4 1) "-" && String.eqb (slice s 7 1) "-"
  then
    match number (slice s 0 4), number (slice s 5 2), number (slice s 8 2) with
    | Some y, Some m, Some d => if valid_date y m d then Some (y, m, d) else None
    | _, _, _ => None
    end
  else None.

(** [dateutil.parser.parse]: a date with an offset is aware, a plain date
    is naive and stands for its midnight. *)
Definition parse_date (s : string) : result datetime :=
  match stamp s with
  | Some (y, m, d, seconds, offset) =>
      Ok {| aware := true;
            instant := (days_from_civil (Z.of_N y) (Z.of_N m) (Z.of_N d) * 86400
                        + Z.of_N seconds - offset)%Z |}
  | None =>
      match plain_date s with
      | Some (y, m, d) =>
          Ok {| aware := false;
                instant := (days_from_civil (Z.of_N y) (Z.of_N m) (Z.of_N d) * 86400)%Z |}
      | None => Raise ParserError
      end
  end.

(** [strptime] with the format of [write_nfo], then [strftime] with
    [%Y-%m-%d]: the date as the feed gives it, in its own time zone. *)
Definition aired (s : string) : result string :=
  match stamp s with
  | Some (y, m, d, _, _) =>
      Ok (Py.str y +:+ "-" +:+ Py.format_02d m +:+ "-" +:+ Py.format_02d d)
  | None => Raise ValueError
  end.

(** The collaborators of the examples.  The patterns of the examples are
    plain words, which [re.search] finds where they occur. *)
Definition collab (pages : string -> result response) (code : Z)
    (feed : string -> list entry) : collaborators := {|
  feedparser_parse := fun _ url => feed url;
  requests_get := fun _ url => pages url;
  now_year := fun _ => 2024;
  youtube_dl := fun _ => downloader code;
  os_write := fun fs path _ => add_file fs path;
  re_compile := fun pattern => Some (Py.contains pattern);
  dateutil_parse := parse_date;
  strptime_aired := aired
|}.

Definition good_pages (url : string) : result response :=
  Ok {| text := page; content := page |}.

Definition bare_pages (url : string) : result response :=
  Ok {| text := bare_page; content := bare_page |}.

Definition ep1 : entry :=
  {[ "link" := "https://x/1"; "title" := "Ep1"; "published" := "Wed, 10 Jan 2024 10:00:00 +0000" ]}.

Definition ep2 : entry :=
  {[ "link" := "https://x/2"; "title" := "Ep2"; "published" := "Wed, 17 Jan 2024 10:00:00 +0000" ]}.

Definition show : ShowConfiguration :=
  {| feed_url := "https://feed/demo";
     download := {| folder := "dl"; filename := "Demo" |};
     filter := None |}.

Definition feed (es : list entry) (url : string) : list entry :=
  if String.eqb url "https://feed/demo" then es else [].

Definition w0 : world :=
  {| history := ∅; files := {[ "dl" := [] ]}; trace := [] |}.

(** A world in which the first episode has been downloaded before. *)
Definition known_world : world :=
  {| history := {[ Some "https://x/1" ]}; files := {[ "dl" := [] ]}; trace := [] |}.

(** A show with a regex filter on the entry field [field]. *)
Definition filtered_show (field : string) : ShowConfiguration :=
  {| feed_url := "https://feed/demo"; download := demo;
     filter := Some {| regex := Some "Ep"; regex_field := Some field;
                       min_date := None |} |}.

(** A show that takes episodes from the first of February 2024 on; the
    minimum date is given with its offset from UTC, as the dates of the
    feed are. *)
Definition dated_show : ShowConfiguration :=
  {| feed_url := "https://feed/demo"; download := demo;
     filter := Some {| regex := None; regex_field := None;
                       min_date := Some "Thu, 01 Feb 2024 00:00:00 +0000" |} |}.

(** The same with a plain date for the minimum. *)
Definition plainly_dated_show : ShowConfiguration :=
  {| feed_url := "https://feed/demo"; download := demo;
     filter := Some {| regex := None; regex_field := None;
                       min_date := Some "2024-02-01" |} |}.

Definition ep3 : entry :=
  {[ "link" := "https://x/3"; "title" := "Ep3"; "published" := "Sat, 10 Feb 2024 10:00:00 +0000" ]}.


Definition two_feeds (url : string) : list entry :=
  if String.eqb url "https://feed/demo" then [ep1]
  else if String.eqb url "https://feed/other" then [ep2]
  else [].


(** Collaborators whose pages carry the thumbnail tag ([good]) or do not
    ([bare]); the downloader exits with 0. *)
Definition good : collaborators := collab good_pages 0 (feed [ep2; ep1]).
Definition single : collaborators := collab good_pages 0 (feed [ep1]).
Definition bare : collaborators := collab bare_pages 0 two_feeds.
Definition failing : collaborators := collab good_pages 1 (feed [ep1]).

Definition downloading : event :=
  EvLog Info "downloading episode %s: %s" [ep1 !! "title"; ep1 !! "link"].



End Demo.


(** The links whose download succeeded, as a trace shows them: the url
    argument of each downloader run that exited with code 0. *)
Definition downloaded_url (ev : event) : option (option string) :=
  match ev with
  | EvRun (_ :: url :: _) (Exited 0) => Some (Some url)
  | _ => None
  end.

Definition downloaded (tr : list event) : list (option string) :=
  omap downloaded_url tr.

(** [m] never changes what [view] shows of the world. *)
Definition keeps {A B : Type} (view : world -> B) (m : M A) : Prop :=
  forall w r w', m w = (r, w') -> view w' = view w.

(** The value of a decimal numeral read from the most significant digit,
    continuing from [acc]. *)
Fixpoint uint_value (d : Decimal.uint) (acc : N) : N :=
  match d with
  | Decimal.Nil => acc
  | Decimal.D0 l => uint_value l (10 * acc)
  | Decimal.D1 l => uint_value l (10 * acc + 1)
  | Decimal.D2 l => uint_value l (10 * acc + 2)
  | Decimal.D3 l => uint_value l (10 * acc + 3)
  | Decimal.D4 l => uint_value l (10 * acc + 4)
  | Decimal.D5 l => uint_value l (10 * acc + 5)
  | Decimal.D6 l => uint_value l (10 * acc + 6)
  | Decimal.D7 l => uint_value l (10 * acc + 7)
  | Decimal.D8 l => uint_value l (10 * acc + 8)
  | Decimal.D9 l => uint_value l (10 * acc + 9)
  end.

(** [m] changes the history by exactly the links whose download its trace
    shows as succeeded. *)
Definition accounts {A : Type} (m : M A) : Prop :=
  forall w r w', m w = (r, w') ->
    exists new,
      trace w' = trace w ++ new
      /\ history w' = list_to_set (downloaded new) ∪ history w.

(** What the eligibility check may read but never changes. *)
Definition stores (w : world) : History.t * filesystem := (history w, files w).

(** The tag [save_thumb] looks for, as it stands in a page: the literal
    with [og:image], a gap of non-word characters, [content=] and the url
    in double quotes. *)
Definition og_tag (gap url : string) : string :=
  Py.og_image_literal +:+ gap +:+ Py.content_literal +:+ url
  +:+ String Py.dquote EmptyString.

(** The [og:image] literal after its opening angle bracket. *)
Definition og_image_rest : string :=
  String.substring 1 (String.length Py.og_image_literal - 1) Py.og_image_literal.

(** More of the demo world: a show that wants the word News in the title,
    a show whose filter block sets nothing, and an entry that has a link
    only. *)
Definition news_show : ShowConfiguration :=
  {| feed_url := "https://feed/demo"; download := demo;
     filter := Some {| regex := Some "News"; regex_field := Some "title";
                       min_date := None |} |}.

Definition blank_filter_show : ShowConfiguration :=
  {| feed_url := "https://feed/demo"; download := demo;
     filter := Some {| regex := None; regex_field := None; min_date := None |} |}.

Definition link_only : entry := {[ "link" := "https://x/4" ]}.

(** * Examples *)

Example int_ex : Py.int "07" = 7 /\ Py.int "٠٧" = 7 /\ Py.int "１２" = 12.
Proof. vm_compute. repeat split; reflexivity. Qed.

Example code_points_ex :
  Py.code_points "Zoë ٧" = [90; 111; 235; 32; 1639]
  /\ Py.code_points (String "255" "a") = [56575; 97].
Proof. vm_compute. split; reflexivity. Qed.

Example format_ex :
  Py.format_02d 0 = "00" /\ Py.format_02d 7 = "07" /\ Py.format_02d 42 = "42"
  /\ Py.format_02d 100 = "100" /\ season_token 2024 = "24" /\ season_token 2100 = "00".
Proof. repeat split; reflexivity. Qed.

Example sorted_ex :
  Py.sorted ["b S24E10.mp4"; "b S24E100.mp4"; "b S24E99.mp4"; "a"]
  = ["a"; "b S24E10.mp4"; "b S24E100.mp4"; "b S24E99.mp4"].
Proof. reflexivity. Qed.

(** A name with a byte that is no UTF-8 sorts as the [str] that stands for
    it: after every character below U+DC80, whatever the byte. *)
Example sorted_undecodable_ex :
  Py.sorted [String "128" ".mp4"; "é.mp4"; "z.mp4"]
  = ["z.mp4"; "é.mp4"; String "128" ".mp4"].
Proof. vm_compute. reflexivity. Qed.

Example splitext_ex :
  Py.splitext_root "Show S24E05.mp4" = "Show S24E05"
  /\ Py.splitext_root ".mp4" = ".mp4"
  /\ Py.splitext_root "a.b/c" = "a.b/c"
  /\ Py.splitext_root "x S1E2.mp4.part" = "x S1E2.mp4".
Proof. repeat split; reflexivity. Qed.

Example match_filename_ex :
  Py.match_filename "Show S24E05" = Some ("24", "05")
  /\ Py.match_filename "A S1E2 B S33E44 tail" = Some ("33", "44")
  /\ Py.match_filename "ShowS24E05" = None
  /\ Py.match_filename "Show S24E" = None.
Proof. repeat split; reflexivity. Qed.

(** [\d] is any decimal digit of Unicode, and [int] reads it. *)
Example match_filename_digits_ex :
  Py.match_filename "Demo S24E٠٥" = Some ("24", "٠٥")
  /\ Py.match_filename "Demo S23E05 S24E٠٧" = Some ("24", "٠٧")
  /\ Py.match_filename "Demo S²E³" = None.
Proof. vm_compute. repeat split; reflexivity. Qed.

Example find_filename_digits_ex :
  find_filename {[ "dl" := ["Demo S24E٠٥.mp4"] ]} 2024 demo = Ok "Demo S24E06"
  /\ find_filename {[ "dl" := ["Demo S23E05 S24E٠٧.mp4"] ]} 2024 demo = Ok "Demo S24E08"
  /\ find_filename {[ "dl" := ["Demo S٢٣E05.mp4"] ]} 2024 demo = Ok "Demo S24E01".
Proof. vm_compute. repeat split; reflexivity. Qed.

Example find_filename_empty :
  find_filename {[ "dl" := [] ]} 2024 demo = Ok "Demo S24E01".
Proof. vm_compute. reflexivity. Qed.

Example find_filename_next :
  find_filename {[ "dl" := ["Demo S24E02.mp4"; "Demo S24E01.mp4"; "Demo S24E02.nfo"] ]}
    2024 demo = Ok "Demo S24E03".
Proof. vm_compute. reflexivity. Qed.

(** The scenario of the specification: one entry, no filter, an empty
    folder; the three files appear and the link is recorded. *)
Example scenario_first_poll :
  let '(r, w) := check_show Demo.single
                   Demo.show Demo.w0 in
  r = Ok tt
  /\ files w !! "dl" = Some ["Demo S24E01.mp4"; "Demo S24E01.nfo"; "Demo S24E01-thumb.jpg"]
  /\ History.is_in_history (history w) (Some "https://x/1") = true.
Proof. vm_compute. repeat split; reflexivity. Qed.

(** The same show polled again with the same entry: the entry is refused
    and no file is created. *)
Example scenario_second_poll :
  let w1 := snd (check_show Demo.single Demo.show Demo.w0) in
  let '(r, w2) := check_show Demo.single Demo.show w1 in
  r = Ok tt
  /\ fst (should_download Demo.single Demo.ep1 Demo.show w1) = Ok false
  /\ files w2 = files w1
  /\ history w2 = history w1.
Proof. vm_compute. repeat split; reflexivity. Qed.

(** A minimum date of 2024-02-01, given with its offset from UTC: an entry
    of 2024-01-10 is refused, one of 2024-02-10 passes the date check and,
    its page being available, is accepted. *)
Example scenario_min_date :
  fst (should_download Demo.single Demo.ep1 Demo.dated_show Demo.w0) = Ok false
  /\ fst (should_download Demo.single Demo.ep3 Demo.dated_show Demo.w0) = Ok true.
Proof. vm_compute. split; reflexivity. Qed.

(** A filter and a page without the availability marker: not released. *)
Example scenario_not_released :
  fst (should_download Demo.bare Demo.ep3 Demo.dated_show Demo.w0) = Ok false.
Proof. vm_compute. reflexivity. Qed.

Example og_image_ex :
  Py.match_og_image (Bytes.repr Demo.page) = Some "https://x/1.jpg"
  /\ Py.match_og_image (Bytes.repr Demo.bare_page) = None.
Proof. vm_compute. split; reflexivity. Qed.
(** * Properties *)

#[local] Arguments String.append !_ _ / : simpl nomatch.

(** ** Characters and bytes *)

Module Characters.

Ltac byte_arith := zify; Z.to_euclidean_division_equations; lia.

Lemma byte_bound (b : ascii) : N_of_ascii b < 256.
Proof. apply N_ascii_bounded. Qed.

Lemma continuation_bounds (b : ascii) :
  Py.is_continuation b = true -> 128 <= N_of_ascii b < 192.
Proof.
  unfold Py.is_continuation. intros [H1 H2]%andb_prop.
  apply N.leb_le in H1. apply N.ltb_lt in H2. lia.
Qed.

Lemma payload_continuation (b : ascii) :
  Py.is_continuation b = true -> Py.payload b = N_of_ascii b - 128.
Proof.
  intros H%continuation_bounds. unfold Py.payload. byte_arith.
Qed.

Lemma utf8_head_shape (s : string) (cp : N) (more : nat) :
  Py.utf8_head s = Some (cp, more) -> head_shape s cp more.
Proof.
  destruct s as [|b0 r]; [discriminate|]. unfold Py.utf8_head. cbv zeta.
  destruct (N.ltb_spec (N_of_ascii b0) 128) as [H0|H0].
  { intros [= <- <-]. now constructor. }
  destruct (N.ltb_spec (N_of_ascii b0) 192) as [H1|H1]; [discriminate|].
  destruct (N.ltb_spec (N_of_ascii b0) 224) as [H2|H2].
  { destruct r as [|b1 r]; [discriminate|].
    destruct (Py.is_continuation b1) eqn:C1; [|discriminate].
    rewrite (payload_continuation _ C1). cbn [andb].
    destruct (N.leb_spec 128 ((N_of_ascii b0 - 192) * 64 + (N_of_ascii b1 - 128)))
      as [Hcp|Hcp]; [|discriminate].
    intros [= <- <-]. apply continuation_bounds in C1.
    now apply head_2. }
  destruct (N.ltb_spec (N_of_ascii b0) 240) as [H3|H3].
  { destruct r as [|b1 [|b2 r]]; [discriminate..|].
    destruct (Py.is_continuation b1) eqn:C1; [|discriminate].
    destruct (Py.is_continuation b2) eqn:C2; [|discriminate].
    rewrite (payload_continuation _ C1), (payload_continuation _ C2). cbn [andb].
    set (cp' := ((N_of_ascii b0 - 224) * 64 + (N_of_ascii b1 - 128)) * 64
                + (N_of_ascii b2 - 128)).
    destruct (N.leb_spec 2048 cp') as [Hlow|Hlow]; [|discriminate]. cbn [andb].
    destruct (N.leb_spec 55296 cp') as [Hs1|Hs1];
      destruct (N.ltb_spec cp' 57344) as [Hs2|Hs2]; cbn [andb negb];
      try discriminate; intros [= <- <-];
      apply continuation_bounds in C1, C2; apply head_3; try done; lia. }
  destruct (N.ltb_spec (N_of_ascii b0) 248) as [H4|H4]; [|discriminate].
  destruct r as [|b1 [|b2 [|b3 r]]]; [discriminate..|].
  destruct (Py.is_continuation b1) eqn:C1; [|discriminate].
  destruct (Py.is_continuation b2) eqn:C2; [|discriminate].
  destruct (Py.is_continuation b3) eqn:C3; [|discriminate].
  rewrite (payload_continuation _ C1), (payload_continuation _ C2),
    (payload_continuation _ C3). cbn [andb].
  set (cp' := (((N_of_ascii b0 - 240) * 64 + (N_of_ascii b1 - 128)) * 64
               + (N_of_ascii b2 - 128)) * 64 + (N_of_ascii b3 - 128)).
  destruct (N.leb_spec 65536 cp') as [Hlow|Hlow]; [|discriminate]. cbn [andb].
  destruct (N.ltb_spec cp' 1114112) as [Hhigh|Hhigh]; [|discriminate].
  intros [= <- <-]. apply continuation_bounds in C1, C2, C3.
  apply head_4; try done; lia.
Qed.

Lemma head_shape_utf8_head (s : string) (cp : N) (more : nat) :
  head_shape s cp more -> Py.utf8_head s = Some (cp, more).
Proof.
  assert (Hc : forall b, 128 <= N_of_ascii b < 192 ->
                 Py.is_continuation b = true /\ Py.payload b = N_of_ascii b - 128).
  { intros b Hb. assert (C : Py.is_continuation b = true).
    { unfold Py.is_continuation. apply andb_true_intro.
      split; [apply N.leb_le|apply N.ltb_lt]; lia. }
    split; [exact C|now apply payload_continuation]. }
  destruct 1 as [b0 r H0|b0 b1 r cp H0 H1 -> Hcp|b0 b1 b2 r cp H0 H1 H2 -> Hcp Hs
                 |b0 b1 b2 b3 r cp H0 H1 H2 H3 -> Hcp];
    unfold Py.utf8_head; cbv zeta.
  - apply N.ltb_lt in H0. now rewrite H0.
  - destruct (Hc b1 H1) as [-> ->].
    replace (N_of_ascii b0 <? 128) with false by (symmetry; apply N.ltb_ge; lia).
    replace (N_of_ascii b0 <? 192) with false by (symmetry; apply N.ltb_ge; lia).
    replace (N_of_ascii b0 <? 224) with true by (symmetry; apply N.ltb_lt; lia).
    apply N.leb_le in Hcp. now rewrite Hcp.
  - destruct (Hc b1 H1) as [-> ->]. destruct (Hc b2 H2) as [-> ->].
    replace (N_of_ascii b0 <? 128) with false by (symmetry; apply N.ltb_ge; lia).
    replace (N_of_ascii b0 <? 192) with false by (symmetry; apply N.ltb_ge; lia).
    replace (N_of_ascii b0 <? 224) with false by (symmetry; apply N.ltb_ge; lia).
    replace (N_of_ascii b0 <? 240) with true by (symmetry; apply N.ltb_lt; lia).
    set (cp := ((N_of_ascii b0 - 224) * 64 + (N_of_ascii b1 - 128)) * 64
               + (N_of_ascii b2 - 128)) in *.
    apply N.leb_le in Hcp. rewrite Hcp. cbn [andb].
    replace ((55296 <=? cp) && (cp <? 57344)) with false; [reflexivity|].
    symmetry. apply andb_false_iff.
    destruct Hs as [Hs|Hs]; [left; apply N.leb_gt|right; apply N.ltb_ge]; lia.
  - destruct (Hc b1 H1) as [-> ->]. destruct (Hc b2 H2) as [-> ->].
    destruct (Hc b3 H3) as [-> ->].
    replace (N_of_ascii b0 <? 128) with false by (symmetry; apply N.ltb_ge; lia).
    replace (N_of_ascii b0 <? 192) with false by (symmetry; apply N.ltb_ge; lia).
    replace (N_of_ascii b0 <? 224) with false by (symmetry; apply N.ltb_ge; lia).
    replace (N_of_ascii b0 <? 240) with false by (symmetry; apply N.ltb_ge; lia).
    replace (N_of_ascii b0 <? 248) with true by (symmetry; apply N.ltb_lt; lia).
    set (cp := (((N_of_ascii b0 - 240) * 64 + (N_of_ascii b1 - 128)) * 64
                + (N_of_ascii b2 - 128)) * 64 + (N_of_ascii b3 - 128)) in *.
    destruct Hcp as [Hlow Hhigh]. apply N.leb_le in Hlow. apply N.ltb_lt in Hhigh.
    now rewrite Hlow, Hhigh.
Qed.

(** The character at the start of a text stays what it is when the text
    goes on. *)
Lemma head_shape_app (s t : string) (cp : N) (more : nat) :
  head_shape s cp more -> head_shape (s +:+ t) cp more.
Proof. destruct 1; cbn [String.append]; now constructor. Qed.

Lemma head_shape_length (b0 : ascii) (r : string) (cp : N) (more : nat) :
  head_shape (String b0 r) cp more -> (more <= String.length r)%nat.
Proof. inversion 1; subst; cbn [String.length]; lia. Qed.

(** An ASCII character is never part of the character before it. *)
Lemma head_shape_joint (b0 : ascii) (r : string) (x : ascii) (t : string)
    (cp : N) (more : nat) :
  (N_of_ascii x <? 128) = true ->
  head_shape (String b0 r +:+ String x t) cp more ->
  head_shape (String b0 r) cp more.
Proof.
  intros Hx%N.ltb_lt H.
  destruct r as [|b1 [|b2 [|b3 r]]]; cbn [String.append] in H;
    inversion H; subst; first [now constructor | lia].
Qed.

Lemma utf8_head_joint (b0 : ascii) (r : string) (x : ascii) (t : string) :
  (N_of_ascii x <? 128) = true ->
  Py.utf8_head (String b0 r +:+ String x t) = Py.utf8_head (String b0 r).
Proof.
  intros Hx. destruct (Py.utf8_head (String b0 r)) as [[cp more]|] eqn:E.
  - now apply head_shape_utf8_head, head_shape_app, utf8_head_shape.
  - destruct (Py.utf8_head (String b0 r +:+ String x t)) as [[cp more]|] eqn:E';
      [|reflexivity].
    apply utf8_head_shape, head_shape_joint, head_shape_utf8_head in E'; [|exact Hx].
    congruence.
Qed.

(** The characters of a text that goes on with an ASCII character are
    those of the text, then those of what follows. *)
Lemma code_points_from_joint (p : string) (x : ascii) (t : string) (pending : nat) :
  (N_of_ascii x <? 128) = true ->
  (pending <= String.length p)%nat ->
  Py.code_points_from pending (p +:+ String x t)
  = Py.code_points_from pending p ++ Py.code_points (String x t).
Proof.
  intros Hx. revert pending. induction p as [|b0 r IH]; intros pending Hp.
  - cbn [String.length] in Hp. assert (pending = O) as -> by lia. reflexivity.
  - destruct pending as [|k].
    + change (String b0 r +:+ String x t) with (String b0 (r +:+ String x t)).
      cbn [Py.code_points_from].
      change (String b0 (r +:+ String x t)) with (String b0 r +:+ String x t).
      rewrite utf8_head_joint by exact Hx.
      destruct (Py.utf8_head (String b0 r)) as [[cp more]|] eqn:E.
      * apply utf8_head_shape, head_shape_length in E.
        now rewrite IH by exact E.
      * now rewrite IH by lia.
    + cbn [String.append Py.code_points_from]. cbn [String.length] in Hp.
      apply IH. lia.
Qed.

Lemma code_points_joint (p : string) (x : ascii) (t : string) :
  (N_of_ascii x <? 128) = true ->
  Py.code_points (p +:+ String x t) = Py.code_points p ++ Py.code_points (String x t).
Proof. intros Hx. apply code_points_from_joint; [exact Hx|lia]. Qed.

Lemma code_points_ascii (x : ascii) (t : string) :
  (N_of_ascii x <? 128) = true ->
  Py.code_points (String x t) = N_of_ascii x :: Py.code_points t.
Proof.
  intros Hx. unfold Py.code_points. cbn [Py.code_points_from].
  unfold Py.utf8_head. cbv zeta. now rewrite Hx.
Qed.

(** *** The bytes are given back by the characters *)

Lemma utf8_char_head (s : string) (cp : N) (more : nat) :
  head_shape s cp more ->
  exists rest,
    s = utf8_char cp +:+ rest
    /\ (String.length rest < String.length s)%nat
    /\ forall b r, s = String b r ->
                   Py.code_points_from more r = Py.code_points rest.
Proof.
  destruct 1 as [b0 r H0|b0 b1 r cp H0 H1 Hcp Hlow|b0 b1 b2 r cp H0 H1 H2 Hcp Hlow Hs
                 |b0 b1 b2 b3 r cp H0 H1 H2 H3 Hcp Hlow];
    exists r; unfold utf8_char.
  - apply N.ltb_lt in H0. rewrite H0, ascii_N_embedding. cbn [String.append].
    repeat split; [cbn [String.length]; lia|]. now intros b r' [= _ <-].
  - replace (cp <? 128) with false by (symmetry; apply N.ltb_ge; lia).
    replace (cp <? 2048) with true by (symmetry; apply N.ltb_lt; lia).
    replace (192 + cp / 64) with (N_of_ascii b0) by byte_arith.
    replace (128 + cp mod 64) with (N_of_ascii b1) by byte_arith.
    rewrite !ascii_N_embedding. cbn [String.append].
    repeat split; [cbn [String.length]; lia|]. now intros b r' [= _ <-].
  - replace (cp <? 128) with false by (symmetry; apply N.ltb_ge; lia).
    replace (cp <? 2048) with false by (symmetry; apply N.ltb_ge; lia).
    replace ((56448 <=? cp) && (cp <? 56576)) with false.
    2:{ symmetry. apply andb_false_iff.
        destruct Hs as [Hs|Hs]; [left; apply N.leb_gt|right; apply N.ltb_ge]; lia. }
    replace (cp <? 65536) with true by (symmetry; apply N.ltb_lt; lia).
    replace (224 + cp / 4096) with (N_of_ascii b0) by byte_arith.
    replace (128 + (cp / 64) mod 64) with (N_of_ascii b1) by byte_arith.
    replace (128 + cp mod 64) with (N_of_ascii b2) by byte_arith.
    rewrite !ascii_N_embedding. cbn [String.append].
    repeat split; [cbn [String.length]; lia|]. now intros b r' [= _ <-].
  - replace (cp <? 128) with false by (symmetry; apply N.ltb_ge; lia).
    replace (cp <? 2048) with false by (symmetry; apply N.ltb_ge; lia).
    replace ((56448 <=? cp) && (cp <? 56576)) with false.
    2:{ symmetry. apply andb_false_iff. right. apply N.ltb_ge. lia. }
    replace (cp <? 65536) with false by (symmetry; apply N.ltb_ge; lia).
    replace (240 + cp / 262144) with (N_of_ascii b0) by byte_arith.
    replace (128 + (cp / 4096) mod 64) with (N_of_ascii b1) by byte_arith.
    replace (128 + (cp / 64) mod 64) with (N_of_ascii b2) by byte_arith.
    replace (128 + cp mod 64) with (N_of_ascii b3) by byte_arith.
    rewrite !ascii_N_embedding. cbn [String.append].
    repeat split; [cbn [String.length]; lia|]. now intros b r' [= _ <-].
Qed.

Lemma utf8_head_none (b0 : ascii) (r : string) :
  Py.utf8_head (String b0 r) = None -> 128 <= N_of_ascii b0.
Proof.
  unfold Py.utf8_head. cbv zeta.
  destruct (N.ltb_spec (N_of_ascii b0) 128) as [H|H]; [discriminate|]. intros _. lia.
Qed.

Lemma utf8_code_points_upto (n : nat) (s : string) :
  (String.length s <= n)%nat -> utf8 (Py.code_points s) = s.
Proof.
  revert s. induction n as [|n IH]; intros s Hn.
  - destruct s; [reflexivity|cbn [String.length] in Hn; lia].
  - destruct s as [|b0 r]; [reflexivity|].
    unfold Py.code_points. cbn [Py.code_points_from].
    destruct (Py.utf8_head (String b0 r)) as [[cp more]|] eqn:E.
    + apply utf8_head_shape, utf8_char_head in E as (rest & Hs & Hlen & Hrest).
      rewrite (Hrest b0 r eq_refl). cbn [utf8]. rewrite IH by lia.
      now rewrite Hs.
    + apply utf8_head_none in E. pose proof (byte_bound b0) as Hb.
      cbn [utf8]. fold (Py.code_points r). rewrite IH by (cbn [String.length] in Hn; lia).
      unfold utf8_char.
      replace (56320 + N_of_ascii b0 <? 128) with false by (symmetry; apply N.ltb_ge; lia).
      replace (56320 + N_of_ascii b0 <? 2048) with false
        by (symmetry; apply N.ltb_ge; lia).
      replace ((56448 <=? 56320 + N_of_ascii b0) && (56320 + N_of_ascii b0 <? 56576))
        with true.
      2:{ symmetry. apply andb_true_intro. split; [apply N.leb_le|apply N.ltb_lt]; lia. }
      replace (56320 + N_of_ascii b0 - 56320) with (N_of_ascii b0) by lia.
      now rewrite ascii_N_embedding.
Qed.

Lemma utf8_code_points (s : string) : utf8 (Py.code_points s) = s.
Proof. now apply (utf8_code_points_upto (String.length s)). Qed.

(** Two names with the same characters are the same name. *)
Lemma code_points_inj (a b : string) : Py.code_points a = Py.code_points b -> a = b.
Proof.
  intros H. rewrite <- (utf8_code_points a), <- (utf8_code_points b). now rewrite H.
Qed.

End Characters.
(** ** The order of [sorted] *)

Module StringOrder.

Abbreviation le := string_le.

Lemma leb_refl (a : list N) : Py.code_points_leb a a = true.
Proof.
  induction a as [|x a IH]; [reflexivity|]. cbn [Py.code_points_leb].
  now rewrite N.eqb_refl, IH, orb_true_r.
Qed.

Lemma leb_trans (a b d : list N) :
  Py.code_points_leb a b = true -> Py.code_points_leb b d = true ->
  Py.code_points_leb a d = true.
Proof.
  revert b d. induction a as [|x a IH]; intros [|y b] [|z d];
    cbn [Py.code_points_leb]; try done.
  intros [Hxy|[Hxy Hab]%andb_prop]%orb_prop [Hyz|[Hyz Hbd]%andb_prop]%orb_prop;
    rewrite ?N.ltb_lt, ?N.eqb_eq in *.
  - apply orb_true_intro. left. apply N.ltb_lt. lia.
  - apply orb_true_intro. left. apply N.ltb_lt. lia.
  - apply orb_true_intro. left. apply N.ltb_lt. lia.
  - apply orb_true_intro. right. subst. rewrite N.eqb_refl. now apply (IH b d).
Qed.

Lemma leb_total (a b : list N) :
  Py.code_points_leb a b = true \/ Py.code_points_leb b a = true.
Proof.
  revert b. induction a as [|x a IH]; intros [|y b]; cbn [Py.code_points_leb]; auto.
  destruct (N.lt_trichotomy x y) as [H|[->|H]].
  - left. apply N.ltb_lt in H. now rewrite H.
  - rewrite N.eqb_refl. destruct (IH b) as [H|H]; rewrite H, orb_true_r; auto.
  - right. apply N.ltb_lt in H. now rewrite H.
Qed.

Lemma leb_antisym (a b : list N) :
  Py.code_points_leb a b = true -> Py.code_points_leb b a = true -> a = b.
Proof.
  revert b. induction a as [|x a IH]; intros [|y b]; cbn [Py.code_points_leb]; try done.
  intros [Hxy|[Hxy Hab]%andb_prop]%orb_prop [Hyx|[Hyx Hba]%andb_prop]%orb_prop;
    rewrite ?N.ltb_lt, ?N.eqb_eq in *; try lia.
  subst. f_equal. now apply IH.
Qed.

(** What two lists begin with alike does not decide between them. *)
Lemma leb_app_l (p a b : list N) :
  Py.code_points_leb (p ++ a) (p ++ b) = Py.code_points_leb a b.
Proof.
  induction p as [|x p IH]; [reflexivity|]. cbn [app Py.code_points_leb].
  now rewrite N.ltb_irrefl, N.eqb_refl, IH.
Qed.

Lemma le_refl (s : string) : le s s.
Proof. apply leb_refl. Qed.

Lemma le_trans (a b d : string) : le a b -> le b d -> le a d.
Proof. apply leb_trans. Qed.

Lemma le_antisym (a b : string) : le a b -> le b a -> a = b.
Proof.
  intros Hab Hba. apply Characters.code_points_inj. now apply leb_antisym.
Qed.

Lemma le_total (a b : string) : le a b \/ le b a.
Proof. apply leb_total. Qed.

(** Two names that begin alike, up to and including an ASCII character,
    compare as what follows that character. *)
Lemma str_leb_joint (p : string) (x : ascii) (a b : string) :
  (N_of_ascii x <? 128) = true ->
  Py.str_leb (p +:+ String x a) (p +:+ String x b) = Py.str_leb a b.
Proof.
  intros Hx. unfold Py.str_leb.
  rewrite !Characters.code_points_joint, leb_app_l by exact Hx.
  rewrite !Characters.code_points_ascii by exact Hx.
  apply (leb_app_l [N_of_ascii x]).
Qed.

Lemma insert_sorted_In (x y : string) (l : list string) :
  In y (Py.insert_sorted x l) <-> y = x \/ In y l.
Proof.
  induction l as [|z l IH]; simpl; [intuition congruence|].
  destruct (Py.str_leb x z); simpl; intuition congruence.
Qed.

Lemma sorted_In (y : string) (l : list string) : In y (Py.sorted l) <-> In y l.
Proof.
  induction l as [|x l IH]; simpl; [done|].
  rewrite insert_sorted_In. intuition congruence.
Qed.

Lemma insert_sorted_ok (x : string) (l : list string) :
  StronglySorted le l -> StronglySorted le (Py.insert_sorted x l).
Proof.
  induction 1 as [|z l Hl IH Hz]; simpl.
  - repeat constructor.
  - destruct (Py.str_leb x z) eqn:Hxz.
    + constructor; [now constructor|].
      constructor; [exact Hxz|].
      eapply Forall_impl; [exact Hz|]. intros w Hw. now apply le_trans with z.
    + constructor; [exact IH|].
      apply Forall_forall. intros w Hw%list_elem_of_In%insert_sorted_In.
      destruct Hw as [->|Hw].
      * destruct (le_total x z) as [H|H]; [unfold string_le in H; congruence|exact H].
      * rewrite Forall_forall in Hz. apply Hz. now apply list_elem_of_In.
Qed.

Lemma sorted_ok (l : list string) : StronglySorted le (Py.sorted l).
Proof.
  induction l as [|x l IH]; simpl; [constructor|]. now apply insert_sorted_ok.
Qed.

Lemma filter_ok (p : string -> bool) (l : list string) :
  StronglySorted le l -> StronglySorted le (List.filter p l).
Proof.
  induction 1 as [|z l Hl IH Hz]; simpl; [constructor|].
  destruct (p z); [|exact IH].
  constructor; [exact IH|].
  apply Forall_forall. intros w Hw%list_elem_of_In%filter_In.
  rewrite Forall_forall in Hz. apply Hz, list_elem_of_In, Hw.
Qed.

(** The last element of a sorted list is its greatest. *)
Lemma last_greatest (l : list string) (m : string) :
  StronglySorted le l -> last l = Some m -> forall x, In x l -> le x m.
Proof.
  induction 1 as [|z l Hl IH Hz]; [done|].
  intros Hlast x Hx. destruct l as [|z' l'].
  - simpl in Hlast. injection Hlast as <-. destruct Hx as [->|[]]. apply le_refl.
  - change (last (z' :: l') = Some m) in Hlast.
    destruct Hx as [->|Hx]; [|now apply IH].
    apply le_trans with z'.
    + rewrite Forall_forall in Hz. apply Hz. now left.
    + apply IH; [exact Hlast|now left].
Qed.

End StringOrder.

(** ** Facts about the string primitives *)

Module StringFacts.

Lemma app_assoc (a b d : string) : (a +:+ b) +:+ d = a +:+ (b +:+ d).
Proof. induction a as [|x a IH]; simpl; [reflexivity|now rewrite IH]. Qed.

Lemma length_app (a b : string) :
  String.length (a +:+ b) = (String.length a + String.length b)%nat.
Proof. induction a as [|x a IH]; simpl; [reflexivity|now rewrite IH]. Qed.

Lemma prefix_app (sub b : string) : String.prefix sub (sub +:+ b) = true.
Proof.
  induction sub as [|x sub IH]; simpl; [now destruct b|].
  destruct (ascii_dec x x); [exact IH|congruence].
Qed.

Lemma contains_unfold (sub s : string) :
  Py.contains sub s
  = String.prefix sub s
    || match s with EmptyString => false | String _ s' => Py.contains sub s' end.
Proof. destruct s; reflexivity. Qed.

Lemma contains_app (sub a b : string) : Py.contains sub (a +:+ sub +:+ b) = true.
Proof.
  induction a as [|x a IH].
  - rewrite contains_unfold. simpl. now rewrite prefix_app.
  - rewrite contains_unfold. simpl String.append. cbv iota. rewrite IH.
    apply orb_true_r.
Qed.

Lemma contains_suffix (sub a : string) : Py.contains sub (a +:+ sub) = true.
Proof.
  induction a as [|x a IH].
  - rewrite contains_unfold. simpl.
    replace sub with (sub +:+ EmptyString) at 2
      by (clear; induction sub as [|y s IH]; simpl; [reflexivity|now rewrite IH]).
    now rewrite prefix_app.
  - rewrite contains_unfold. simpl String.append. cbv iota. rewrite IH.
    apply orb_true_r.
Qed.

Lemma all_chars_app (p : ascii -> bool) (a b : string) :
  Py.all_chars p (a +:+ b) = Py.all_chars p a && Py.all_chars p b.
Proof.
  induction a as [|x a IH]; simpl; [reflexivity|].
  now rewrite IH, andb_assoc.
Qed.

Lemma all_chars_impl (p q : ascii -> bool) (s : string) :
  (forall x, p x = true -> q x = true) ->
  Py.all_chars p s = true -> Py.all_chars q s = true.
Proof.
  intros Hpq. induction s as [|x s IH]; simpl; [done|].
  intros [Hx Hs]%andb_prop. now rewrite (Hpq _ Hx), IH.
Qed.

Lemma rfind_absent (x : ascii) (s : string) :
  Py.all_chars (fun y => negb (Ascii.eqb y x)) s = true -> Py.rfind x s = None.
Proof.
  induction s as [|y s IH]; simpl; [done|].
  intros [Hy Hs]%andb_prop. rewrite (IH Hs).
  now destruct (Ascii.eqb y x).
Qed.

Lemma rfind_app (x : ascii) (a b : string) :
  Py.rfind x (a +:+ b)
  = match Py.rfind x b with
    | Some i => Some (String.length a + i)%nat
    | None => Py.rfind x a
    end.
Proof.
  induction a as [|y a IH]; simpl.
  - now destruct (Py.rfind x b).
  - rewrite IH. now destruct (Py.rfind x b).
Qed.

Lemma rfind_lt (x : ascii) (s : string) (i : nat) :
  Py.rfind x s = Some i -> (i < String.length s)%nat.
Proof.
  revert i. induction s as [|y s IH]; simpl; [done|].
  intros i. destruct (Py.rfind x s) as [j|].
  - intros [= <-]. specialize (IH j eq_refl). lia.
  - destruct (Ascii.eqb y x); intros [= <-]. lia.
Qed.

Lemma substring_0_app (a b : string) : String.substring 0 (String.length a) (a +:+ b) = a.
Proof.
  induction a as [|x a IH]; simpl; [now destruct b|now rewrite IH].
Qed.

(** A slice that covers a character failing [p] does not satisfy [p]
    throughout. *)
Lemma all_chars_slice (p : ascii -> bool) (a b : string) (x : ascii) (start len : nat) :
  p x = false ->
  (start <= String.length a)%nat -> (String.length a < start + len)%nat ->
  Py.all_chars p (String.substring start len (a +:+ String x b)) = false.
Proof.
  intros Hx. revert start len.
  induction a as [|y a IH]; intros start len Hstart Hlen; simpl in *.
  - assert (start = O) as -> by lia. destruct len as [|len]; [lia|].
    simpl. now rewrite Hx.
  - destruct start as [|start].
    + destruct len as [|len]; [lia|]. simpl.
      rewrite (IH O len); [apply andb_false_r|lia|lia].
    + apply IH; lia.
Qed.

(** Every natural number below 100 is one of a hundred cases. *)
Lemma below_100 (P : N -> bool) :
  forallb P (map N.of_nat (seq 0 100)) = true ->
  forall n, n < 100 -> P n = true.
Proof.
  intros H n Hn. rewrite forallb_forall in H. apply H.
  apply in_map_iff. exists (N.to_nat n). split; [apply N2Nat.id|].
  apply in_seq. lia.
Qed.

Abbreviation nonempty := Py.nonempty.

Lemma format_02d_digits (n : N) :
  n < 100 ->
  Py.all_chars Py.is_digit (Py.format_02d n) = true
  /\ nonempty (Py.format_02d n) = true.
Proof.
  intros Hn. apply andb_prop.
  revert n Hn. apply (below_100
    (fun n => Py.all_chars Py.is_digit (Py.format_02d n) && nonempty (Py.format_02d n))).
  vm_compute. reflexivity.
Qed.

Lemma int_format_02d (n : N) : n < 100 -> Py.int (Py.format_02d n) = n.
Proof.
  intros Hn. apply N.eqb_eq. revert n Hn.
  apply (below_100 (fun n => Py.int (Py.format_02d n) =? n)).
  vm_compute. reflexivity.
Qed.

(** Up to 99 the padded numerals sort as the numbers do. *)
Lemma format_02d_ascending (n : N) :
  n < 99 ->
  Py.str_leb (Py.format_02d n +:+ ".mp4") (Py.format_02d (n + 1) +:+ ".mp4") = true.
Proof.
  intros Hn.
  assert (G : (99 <=? n)
              || Py.str_leb (Py.format_02d n +:+ ".mp4")
                   (Py.format_02d (n + 1) +:+ ".mp4") = true).
  { assert (Hn' : n < 100) by lia. revert n Hn' Hn. intros n Hn' _. revert n Hn'.
    apply (below_100 (fun n => (99 <=? n)
                               || Py.str_leb (Py.format_02d n +:+ ".mp4")
                                    (Py.format_02d (n + 1) +:+ ".mp4"))).
    vm_compute. reflexivity. }
  apply orb_prop in G as [G|G]; [apply N.leb_le in G; lia|exact G].
Qed.

Lemma season_token_digits (year : N) :
  Py.all_chars Py.is_digit (season_token year) = true
  /\ nonempty (season_token year) = true.
Proof. apply format_02d_digits, N.mod_lt. lia. Qed.

(** A digit is none of the characters that structure a file name. *)
Lemma digit_not (x y : ascii) :
  Py.is_digit x = true -> Py.is_digit y = false -> Ascii.eqb x y = false.
Proof.
  intros Hx Hy. destruct (Ascii.eqb_spec x y) as [->|]; [congruence|reflexivity].
Qed.

Lemma digits_without (y : ascii) (s : string) :
  Py.is_digit y = false ->
  Py.all_chars Py.is_digit s = true ->
  Py.all_chars (fun x => negb (Ascii.eqb x y)) s = true.
Proof.
  intros Hy. apply all_chars_impl. intros x Hx. now rewrite (digit_not x y).
Qed.

End StringFacts.

(** ** The names the sequencer writes and reads back *)

Module Names.

Import StringFacts.

(** On an ASCII character [\d] is a digit from 0 to 9, with its value. *)
Lemma decimal_head_ascii (x : ascii) (s : string) :
  (N_of_ascii x <? 128) = true ->
  Py.decimal_head (String x s)
  = if Py.is_digit x then Some (N_of_ascii x - 48, O) else None.
Proof.
  intros Hx. unfold Py.decimal_head, Py.utf8_head. cbv zeta. rewrite Hx.
  clear s. destruct x as [[] [] [] [] [] [] [] []];
    first [discriminate Hx | vm_compute; reflexivity].
Qed.

Lemma digit_is_ascii (x : ascii) :
  Py.is_digit x = true -> (N_of_ascii x <? 128) = true.
Proof.
  unfold Py.is_digit. intros [_ H]%andb_prop. apply N.leb_le in H.
  apply N.ltb_lt. lia.
Qed.

Lemma decimal_head_digit (x : ascii) (s : string) :
  Py.is_digit x = true ->
  Py.decimal_head (String x s) = Some (N_of_ascii x - 48, O).
Proof.
  intros Hx. rewrite decimal_head_ascii by now apply digit_is_ascii.
  now rewrite Hx.
Qed.

Lemma span_digits_app (ds tl : string) :
  Py.all_chars Py.is_digit ds = true ->
  ends_digits tl = true ->
  Py.span_decimal (ds +:+ tl) = (ds, tl).
Proof.
  intros Hds Htl. unfold Py.span_decimal.
  induction ds as [|x ds IH]; simpl in Hds |- *.
  - destruct tl as [|y tl]; [reflexivity|]. cbn [Py.span_decimal_from].
    simpl in Htl. apply andb_prop in Htl as [Hy Hd].
    rewrite decimal_head_ascii by exact Hy.
    now apply negb_true_iff in Hd as ->.
  - apply andb_prop in Hds as [Hx Hds]. cbn [Py.span_decimal_from].
    rewrite decimal_head_digit by exact Hx. now rewrite IH.
Qed.

Lemma span_digits_all (ds : string) :
  Py.all_chars Py.is_digit ds = true ->
  Py.span_decimal ds = (ds, EmptyString).
Proof.
  intros Hds. unfold Py.span_decimal.
  induction ds as [|x ds IH]; simpl in Hds |- *; [reflexivity|].
  apply andb_prop in Hds as [Hx Hds]. cbn [Py.span_decimal_from].
  rewrite decimal_head_digit by exact Hx. now rewrite IH.
Qed.

Lemma match_SdEd_generated (season episode : string) :
  Py.all_chars Py.is_digit season = true -> nonempty season = true ->
  Py.all_chars Py.is_digit episode = true -> nonempty episode = true ->
  Py.match_SdEd ("S" +:+ season +:+ "E" +:+ episode) = Some (season, episode).
Proof.
  intros Hs Hs' He He'. unfold Py.match_SdEd. simpl.
  rewrite span_digits_app by done.
  destruct season as [|d ds]; [done|].
  rewrite span_digits_all by done.
  now destruct episode.
Qed.

(** Where no blank stands, the blank that the pattern of [find_filename]
    wants before the S is not found. *)
Lemma dotstar_blank_absent {A : Type} (k : string -> option A) (s : string) :
  Py.all_chars (fun x => negb (Ascii.eqb x " ")) s = true ->
  Py.dotstar (fun t => match t with String " " r => k r | _ => None end) s = None.
Proof.
  induction s as [|x s IH]; simpl; [done|].
  intros [Hx Hs]%andb_prop. rewrite (IH Hs).
  destruct (Ascii.eqb x Py.newline); simpl.
  - destruct (Ascii.eqb_spec x " ") as [->|Hne]; [done|].
    destruct x as [[] [] [] [] [] [] [] []]; done.
  - destruct (Ascii.eqb_spec x " ") as [->|Hne]; [done|].
    destruct x as [[] [] [] [] [] [] [] []]; done.
Qed.

Lemma dotstar_found {A : Type} (rest : string -> option A) (p s : string) (r : A) :
  Py.all_chars (fun x => negb (Ascii.eqb x Py.newline)) p = true ->
  Py.dotstar rest s = Some r ->
  Py.dotstar rest (p +:+ s) = Some r.
Proof.
  intros Hp Hs. induction p as [|x p IH]; simpl in *; [exact Hs|].
  apply andb_prop in Hp as [Hx Hp]. apply negb_true_iff in Hx. rewrite Hx.
  now rewrite (IH Hp).
Qed.

(** The pattern of [find_filename] reads back the season and the episode
    of a name the sequencer wrote. *)
Lemma match_filename_generated (prefix season episode : string) :
  Py.all_chars (fun x => negb (Ascii.eqb x Py.newline)) prefix = true ->
  Py.all_chars Py.is_digit season = true -> nonempty season = true ->
  Py.all_chars Py.is_digit episode = true -> nonempty episode = true ->
  Py.match_filename (prefix +:+ " S" +:+ season +:+ "E" +:+ episode)
  = Some (season, episode).
Proof.
  intros Hp Hs Hs' He He'. unfold Py.match_filename.
  apply dotstar_found; [exact Hp|].
  change (" S" +:+ season +:+ "E" +:+ episode)
    with (String " " ("S" +:+ season +:+ "E" +:+ episode)).
  cbn [Py.dotstar]. change (Ascii.eqb " " Py.newline) with false. cbv iota.
  rewrite dotstar_blank_absent.
  - now apply match_SdEd_generated.
  - change ("S" +:+ season +:+ "E" +:+ episode)
      with (String "S" (season +:+ String "E" episode)).
    cbn [Py.all_chars]. rewrite all_chars_app. cbn [Py.all_chars].
    rewrite !digits_without by done. reflexivity.
Qed.

(** [splitext] takes the extension off a media file the sequencer named. *)
Lemma splitext_generated (prefix season episode : string) :
  Py.all_chars Py.is_digit season = true ->
  Py.all_chars Py.is_digit episode = true ->
  Py.splitext_root ((prefix +:+ " S" +:+ season +:+ "E" +:+ episode) +:+ ".mp4")
  = prefix +:+ " S" +:+ season +:+ "E" +:+ episode.
Proof.
  intros Hs He. unfold Py.splitext_root.
  set (tl := "S" +:+ season +:+ "E" +:+ episode).
  assert (Htl : forall y, Py.is_digit y = false -> Ascii.eqb "S" y = false ->
                  Ascii.eqb "E" y = false ->
                  Py.all_chars (fun x => negb (Ascii.eqb x y)) tl = true).
  { intros y Hy HS HE. unfold tl.
    change ("S" +:+ season +:+ "E" +:+ episode)
      with (String "S" (season +:+ String "E" episode)).
    cbn [Py.all_chars]. rewrite all_chars_app. cbn [Py.all_chars].
    rewrite !digits_without by done. now rewrite HS, HE. }
  change (prefix +:+ " S" +:+ season +:+ "E" +:+ episode)
    with (prefix +:+ String " " tl).
  set (stem := prefix +:+ String " " tl).
  assert (Hdot : Py.rfind "." (stem +:+ ".mp4") = Some (String.length stem)).
  { rewrite rfind_app. change (Py.rfind "." ".mp4") with (Some O).
    cbv iota. now rewrite Nat.add_0_r. }
  assert (Hsep : Py.rfind "/" (stem +:+ ".mp4") = Py.rfind "/" stem).
  { rewrite rfind_app. reflexivity. }
  rewrite Hdot, Hsep. clear Hdot Hsep.
  assert (Hstart : (match Py.rfind "/" stem with Some sep => S sep | None => O end
                    <= String.length prefix)%nat).
  { unfold stem. rewrite rfind_app.
    change (Py.rfind "/" (String " " tl))
      with (match Py.rfind "/" tl with
            | Some i => Some (S i)
            | None => @None nat
            end).
    rewrite rfind_absent by now apply Htl.
    destruct (Py.rfind "/" prefix) as [i|] eqn:Hi; [|lia].
    apply rfind_lt in Hi. lia. }
  set (start := match Py.rfind "/" stem with Some sep => S sep | None => O end) in *.
  assert (Hlen : String.length stem = (String.length prefix + S (String.length tl))%nat).
  { unfold stem. now rewrite length_app. }
  replace (start <=? String.length stem)%nat with true
    by (symmetry; apply Nat.leb_le; lia).
  unfold stem at 2. rewrite app_assoc. change (String " " tl +:+ ".mp4")
    with (String " " (tl +:+ ".mp4")).
  rewrite all_chars_slice by (done || lia).
  simpl negb. cbv iota. cbn [andb].
  apply substring_0_app.
Qed.

End Names.

(** ** The filename sequencer *)

Module Sequencer.

Import StringFacts Names.

Lemma episode_files_In (d : DownloadConfiguration) (l : list string) (y : string) :
  In y (episode_files d l) <-> In y l /\ is_episode_file d y = true.
Proof.
  unfold episode_files. rewrite filter_In, StringOrder.sorted_In. reflexivity.
Qed.

Lemma episode_files_sorted (d : DownloadConfiguration) (l : list string) :
  StronglySorted StringOrder.le (episode_files d l).
Proof. apply StringOrder.filter_ok, StringOrder.sorted_ok. Qed.

(** [episode_files[-1]] is the greatest of the names that pass the filter. *)
Lemma last_episode_file (d : DownloadConfiguration) (l : list string) (m : string) :
  last (episode_files d l) = Some m
  <-> In m l /\ is_episode_file d m = true
      /\ forall y, In y l -> is_episode_file d y = true -> StringOrder.le y m.
Proof.
  split.
  - intros Hlast.
    assert (Hm : In m (episode_files d l)).
    { apply last_Some in Hlast as [l' ->]. apply in_or_app. right. now left. }
    apply episode_files_In in Hm as Hm'. destruct Hm' as [Hin Hep].
    repeat split; try done.
    intros y Hy Hy'. eapply StringOrder.last_greatest;
      [apply episode_files_sorted|exact Hlast|]. now apply episode_files_In.
  - intros (Hin & Hep & Hmax).
    assert (Hm : In m (episode_files d l)) by now apply episode_files_In.
    destruct (last (episode_files d l)) as [m'|] eqn:Hlast.
    + f_equal. apply StringOrder.le_antisym.
      * assert (Hm' : In m' (episode_files d l)).
        { apply last_Some in Hlast as [l' ->]. apply in_or_app. right. now left. }
        apply episode_files_In in Hm' as [? ?]. now apply Hmax.
      * eapply StringOrder.last_greatest;
          [apply episode_files_sorted|exact Hlast|exact Hm].
    + apply last_None in Hlast. rewrite Hlast in Hm. destruct Hm.
Qed.


Lemma no_episode_files (d : DownloadConfiguration) (l : list string) :
  episode_files d l = [] <-> forall y, In y l -> is_episode_file d y = false.
Proof.
  split.
  - intros Hnil y Hy. destruct (is_episode_file d y) eqn:Hep; [|reflexivity].
    assert (H : In y (episode_files d l)) by now apply episode_files_In.
    rewrite Hnil in H. destruct H.
  - intros Hall. destruct (episode_files d l) as [|y l'] eqn:Heq; [reflexivity|].
    assert (H : In y (episode_files d l)) by (rewrite Heq; now left).
    apply episode_files_In in H as [Hin Hep]. rewrite (Hall y Hin) in Hep. done.
Qed.

Lemma create_file_In (name y : string) (l : list string) :
  In y (create_file name l) <-> y = name \/ In y l.
Proof.
  unfold create_file. destruct (decide (name ∈ l)) as [Hin|Hin]; simpl.
  - apply list_elem_of_In in Hin. intuition congruence.
  - intuition congruence.
Qed.

Lemma numbered_is_episode_file (d : DownloadConfiguration) (season : string) (k : N) :
  is_episode_file d (numbered d season k +:+ ".mp4") = true.
Proof.
  unfold is_episode_file, numbered. apply andb_true_intro. split.
  - rewrite contains_unfold, app_assoc, prefix_app. reflexivity.
  - apply contains_suffix.
Qed.

Lemma numbered_ascending (d : DownloadConfiguration) (season : string) (k : N) :
  k < 99 ->
  StringOrder.le (numbered d season k +:+ ".mp4") (numbered d season (k + 1) +:+ ".mp4").
Proof.
  intros Hk. unfold string_le, numbered.
  replace ((filename d +:+ " S" +:+ season +:+ "E" +:+ Py.format_02d k) +:+ ".mp4")
    with ((filename d +:+ " S" +:+ season) +:+ String "E" (Py.format_02d k +:+ ".mp4"))
    by now rewrite !app_assoc.
  replace ((filename d +:+ " S" +:+ season +:+ "E" +:+ Py.format_02d (k + 1)) +:+ ".mp4")
    with ((filename d +:+ " S" +:+ season)
          +:+ String "E" (Py.format_02d (k + 1) +:+ ".mp4"))
    by now rewrite !app_assoc.
  rewrite StringOrder.str_leb_joint by reflexivity.
  now apply format_02d_ascending.
Qed.

(** What [find_filename] returns from a folder that holds episodes up to
    number [k] of the season. *)
Lemma next_filename_counts (d : DownloadConfiguration) (year : N)
    (listing : list string) (k : N) :
  Py.all_chars (fun x => negb (Ascii.eqb x Py.newline)) (filename d) = true ->
  counted_up_to d (season_token year) listing k ->
  next_filename d (season_token year) listing
  = Ok (numbered d (season_token year) (k + 1)).
Proof.
  intros Hprefix [[-> Hnil]|[Hk Hlast]]; unfold next_filename.
  - rewrite Hnil. reflexivity.
  - rewrite Hlast. cbv zeta.
    destruct (season_token_digits year) as [Hs Hs'].
    destruct (format_02d_digits k Hk) as [He He'].
    unfold numbered at 1.
    rewrite splitext_generated by done.
    rewrite match_filename_generated by done.
    rewrite String.eqb_refl, int_format_02d by done.
    reflexivity.
Qed.

(** After the media file of episode [k + 1] has been created, the folder
    holds episodes up to [k + 1], as long as the number has two digits. *)
Lemma create_file_counts (d : DownloadConfiguration) (season : string)
    (listing : list string) (k : N) :
  counted_up_to d season listing k ->
  k + 1 < 100 ->
  counted_up_to d season
    (create_file (numbered d season (k + 1) +:+ ".mp4") listing) (k + 1).
Proof.
  intros Hstart Hk. right. split; [exact Hk|].
  apply last_episode_file. repeat split.
  - apply create_file_In. now left.
  - apply numbered_is_episode_file.
  - intros y [->|Hy]%create_file_In Hep; [apply StringOrder.le_refl|].
    destruct Hstart as [[-> Hnil]|[_ Hlast]].
    + rewrite no_episode_files in Hnil. rewrite (Hnil y Hy) in Hep. done.
    + apply StringOrder.le_trans with (numbered d season k +:+ ".mp4").
      * apply last_episode_file in Hlast as (_ & _ & Hmax). now apply Hmax.
      * apply numbered_ascending. lia.
Qed.

Lemma N_seq_from (start : N) (len : nat) :
  Forall (fun x => start <= x) (N_seq start len).
Proof.
  revert start. induction len as [|len IH]; intros start; simpl; constructor.
  - lia.
  - eapply Forall_impl; [apply IH|]. simpl. intros x Hx. lia.
Qed.

Lemma N_seq_increasing (start : N) (len : nat) :
  StronglySorted N.lt (N_seq start len).
Proof.
  revert start. induction len as [|len IH]; intros start; simpl; constructor.
  - apply IH.
  - eapply Forall_impl; [apply N_seq_from|]. simpl. intros x Hx. lia.
Qed.

End Sequencer.

(** ** Claims about [find_filename] *)

(** C6: [find_filename] returns the prefix, the current season token and
    episode 01 when the folder holds no matching media file, and also when
    the matching file that sorts last carries a season token other than
    the two-digit current year. *)
Theorem find_filename_first_episode (fs : filesystem) (year : N)
    (download : DownloadConfiguration) (listing : list string) :
  fs !! folder download = Some listing ->
  (episode_files download listing = []
   \/ exists newest season2 episode,
        last (episode_files download listing) = Some newest
        /\ Py.match_filename (Py.splitext_root newest) = Some (season2, episode)
        /\ season2 <> season_token year) ->
  find_filename fs year download
  = Ok (filename download +:+ " S" +:+ season_token year +:+ "E01").
Proof.
  intros Hfs Hcases. unfold find_filename, next_filename. rewrite Hfs.
  destruct Hcases as [Hnil|(newest & season2 & episode & Hlast & Hmatch & Hne)].
  - rewrite Hnil. reflexivity.
  - rewrite Hlast. cbv zeta. rewrite Hmatch.
    assert (Heq : String.eqb (season_token year) season2 = false).
    { apply String.eqb_neq. congruence. }
    rewrite Heq. reflexivity.
Qed.

Lemma find_filename_first_episode_witness :
  find_filename {[ "dl" := ["Demo S23E07.mp4"; "Demo S23E06.mp4"] ]} 2024 demo
  = Ok "Demo S24E01".
Proof.
  apply (find_filename_first_episode
           {[ "dl" := ["Demo S23E07.mp4"; "Demo S23E06.mp4"] ]} 2024 demo
           ["Demo S23E07.mp4"; "Demo S23E06.mp4"]).
  - reflexivity.
  - right. exists "Demo S23E07.mp4", "23", "07".
    split; [reflexivity|]. split; [reflexivity|]. vm_compute. discriminate.
Defined.

(** A stem that conforms to the naming pattern is matched by the regular
    expression of [find_filename], when the prefix has no line break. *)
Lemma strip_prefix_Some (lit s r : string) :
  Py.strip_prefix lit s = Some r -> s = lit +:+ r.
Proof.
  revert s. induction lit as [|a lit IH]; intros [|b s]; simpl; try congruence.
  destruct (Ascii.eqb_spec a b) as [->|]; [|done].
  intros H%IH. now rewrite H.
Qed.

Lemma span_Some (p : ascii -> bool) (s a b : string) :
  Py.span p s = (a, b) -> s = a +:+ b /\ Py.all_chars p a = true.
Proof.
  revert a b. induction s as [|x s IH]; intros a b; simpl.
  - intros [= <- <-]. done.
  - destruct (p x) eqn:Hx.
    + destruct (Py.span p s) as [run tl]. intros [= <- <-].
      destruct (IH run tl eq_refl) as [-> Hrun]. simpl. now rewrite Hx, Hrun.
    + intros [= <- <-]. done.
Qed.

Lemma conforming_is_matched (prefix stem : string) :
  Py.all_chars (fun x => negb (Ascii.eqb x Py.newline)) prefix = true ->
  conforms_to_pattern prefix stem = true ->
  exists season episode, Py.match_filename stem = Some (season, episode).
Proof.
  intros Hprefix. unfold conforms_to_pattern.
  destruct (Py.strip_prefix (prefix +:+ " S") stem) as [r|] eqn:Hstrip; [|done].
  apply strip_prefix_Some in Hstrip as ->.
  destruct (Py.span Py.is_digit r) as [season tl] eqn:Hspan.
  apply span_Some in Hspan as [-> Hseason].
  destruct season as [|d ds]; [done|].
  destruct tl as [|e r']; [done|].
  destruct (Ascii.eqb_spec e "E") as [->|Hne];
    [|destruct e as [[] [] [] [] [] [] [] []]; done].
  destruct (Py.span Py.is_digit r') as [episode tl'] eqn:Hspan'.
  apply span_Some in Hspan' as [-> Hepisode].
  destruct episode as [|e es]; [done|].
  destruct tl' as [|? ?]; [|done]. intros _.
  exists (String d ds), (String e es).
  rewrite StringFacts.app_assoc.
  replace (String e es +:+ EmptyString) with (String e es).
  - now apply Names.match_filename_generated.
  - clear. generalize (String e es). intros s.
    induction s as [|y s IH]; simpl; [reflexivity|now rewrite <- IH].
Qed.

(** C9, as the code has it: [find_filename] fails, with [AttributeError],
    exactly when the pattern of its [re.match] (any text without line
    break, a blank, S, digits, E, digits, anything after) does not match
    the stem of the matching file that sorts last. *)
Theorem find_filename_rejects_unmatched (fs : filesystem) (year : N)
    (download : DownloadConfiguration) (listing : list string) (newest : string) :
  fs !! folder download = Some listing ->
  last (episode_files download listing) = Some newest ->
  (find_filename fs year download = Raise AttributeError
   <-> Py.match_filename (Py.splitext_root newest) = None).
Proof.
  intros Hfs Hlast. unfold find_filename, next_filename. rewrite Hfs, Hlast.
  cbv zeta. destruct (Py.match_filename (Py.splitext_root newest)) as [[g2 g3]|].
  - split; discriminate.
  - split; reflexivity.
Qed.

Lemma find_filename_rejects_unmatched_witness :
  find_filename {[ "dl" := ["Demo special.mp4"; "Demo S24E01.mp4"] ]} 2024 demo
  = Raise AttributeError.
Proof.
  apply (find_filename_rejects_unmatched
           {[ "dl" := ["Demo special.mp4"; "Demo S24E01.mp4"] ]} 2024 demo
           ["Demo special.mp4"; "Demo S24E01.mp4"] "Demo special.mp4").
  - reflexivity.
  - reflexivity.
  - reflexivity.
Defined.

(** C9 as stated fails: the file that sorts last has text before the prefix
    and after the episode number, so it does not conform to the pattern;
    [find_filename] does not fail but counts on from it, and here returns
    the name of a media file that exists already. *)
Lemma find_filename_guesses_from_nonconforming :
  let listing := ["My Demo S24E05 (copy).mp4"; "Demo S24E06.mp4"] in
  last (episode_files demo listing) = Some "My Demo S24E05 (copy).mp4"
  /\ conforms_to_pattern (filename demo)
       (Py.splitext_root "My Demo S24E05 (copy).mp4") = false
  /\ find_filename {[ "dl" := listing ]} 2024 demo = Ok "Demo S24E06"
  /\ In ("Demo S24E06" +:+ ".mp4") listing.
Proof. vm_compute. repeat split; try reflexivity. right. now left. Qed.

(** C5, within the limit of two digits: from a folder with no episode file,
    or one whose last episode file is the sequencer's own for episode [k],
    with a prefix free of line breaks, the rounds return the names of the
    episodes [k + 1], [k + 2], ... in this order, as long as the numbers do
    not go beyond 100; these numbers increase strictly. *)
Theorem sequencer_counts_up (n : nat) (year : N) (download : DownloadConfiguration)
    (fs : filesystem) (listing : list string) (k : N) :
  Py.all_chars (fun x => negb (Ascii.eqb x Py.newline)) (filename download) = true ->
  fs !! folder download = Some listing ->
  counted_up_to download (season_token year) listing k ->
  k + N.of_nat n <= 100 ->
  sequencer_rounds n year download fs
  = Ok (map (numbered download (season_token year)) (N_seq (k + 1) n))
  /\ StronglySorted N.lt (N_seq (k + 1) n).
Proof.
  intros Hprefix Hfs Hstart Hn. split; [|apply Sequencer.N_seq_increasing].
  revert fs listing k Hfs Hstart Hn.
  induction n as [|n IH]; intros fs listing k Hfs Hstart Hn; [reflexivity|].
  cbn [sequencer_rounds N_seq map]. unfold find_filename. rewrite Hfs.
  rewrite (Sequencer.next_filename_counts download year listing k) by done.
  cbn [default].
  destruct n as [|n].
  - reflexivity.
  - rewrite (IH _ (create_file (numbered download (season_token year) (k + 1) +:+ ".mp4")
                     listing) (k + 1)).
    + reflexivity.
    + apply lookup_insert_eq.
    + apply Sequencer.create_file_counts; [exact Hstart|lia].
    + lia.
Qed.

Lemma sequencer_counts_up_witness :
  sequencer_rounds 3 2024 demo {[ "dl" := ["Demo S24E08.mp4"; "notes.txt"] ]}
  = Ok ["Demo S24E09"; "Demo S24E10"; "Demo S24E11"]
  /\ StronglySorted N.lt [9; 10; 11].
Proof.
  apply (sequencer_counts_up 3 2024 demo {[ "dl" := ["Demo S24E08.mp4"; "notes.txt"] ]}
           ["Demo S24E08.mp4"; "notes.txt"] 8).
  - reflexivity.
  - reflexivity.
  - right. split; [reflexivity|reflexivity].
  - vm_compute. discriminate.
Defined.

(** C5 as stated fails.  After episode 99 the name of episode 100 sorts
    before that of episode 99, so the next round returns episode 100 once
    more; and a matching file that sorts after the sequencer's own keeps
    every round at the same number. *)
Lemma sequencer_repeats :
  sequencer_rounds 2 2024 demo {[ "dl" := ["Demo S24E99.mp4"] ]}
  = Ok ["Demo S24E100"; "Demo S24E100"]
  /\ sequencer_rounds 2 2024 demo {[ "dl" := ["The Demo S24E05.mp4"] ]}
     = Ok ["Demo S24E06"; "Demo S24E06"].
Proof. vm_compute. split; reflexivity. Qed.

(** ** Computations and the trace *)

Module Effects.

Lemma appends_nothing {A : Type} (P : event -> Prop) (m : M A) :
  (forall w r w', m w = (r, w') -> trace w' = trace w) -> appends P m.
Proof.
  intros H w r w' Hm. exists []. rewrite (H _ _ _ Hm), app_nil_r. auto.
Qed.

Lemma appends_ret {A : Type} (P : event -> Prop) (a : A) : appends P (ret a).
Proof. apply appends_nothing. unfold ret. now intros w r w' [= _ <-]. Qed.

Lemma appends_raise {A : Type} (P : event -> Prop) (e : exn) : appends P (@raise A e).
Proof. apply appends_nothing. unfold raise. now intros w r w' [= _ <-]. Qed.

Lemma appends_lift {A : Type} (P : event -> Prop) (x : result A) : appends P (lift x).
Proof. apply appends_nothing. unfold lift. now intros w r w' [= _ <-]. Qed.

Lemma appends_emit (P : event -> Prop) (ev : event) : P ev -> appends P (emit ev).
Proof.
  intros Hev w r w' [= _ <-]. exists [ev]. split; [reflexivity|]. now constructor.
Qed.

Lemma appends_bind {A B : Type} (P : event -> Prop) (m : M A) (k : A -> M B) :
  appends P m -> (forall a, appends P (k a)) -> appends P (bind m k).
Proof.
  intros Hm Hk w r w'. unfold bind.
  destruct (m w) as [[a|e] w1] eqn:Hrun.
  - intros Hrun'. destruct (Hm _ _ _ Hrun) as (new1 & E1 & H1).
    destruct (Hk a _ _ _ Hrun') as (new2 & E2 & H2).
    exists (new1 ++ new2). split; [now rewrite E2, E1, <- app_assoc|].
    now apply Forall_app.
  - intros [= <- <-]. exact (Hm _ _ _ Hrun).
Qed.

Lemma appends_try_except {A : Type} (P : event -> Prop) (body handler : M A) (e : exn) :
  appends P body -> appends P handler -> appends P (try_except body e handler).
Proof.
  intros Hb Hh w r w'. unfold try_except.
  destruct (body w) as [[a|e'] w1] eqn:Hrun.
  - intros [= <- <-]. exact (Hb _ _ _ Hrun).
  - destruct (decide (e' = e)).
    + intros Hrun'. destruct (Hb _ _ _ Hrun) as (new1 & E1 & H1).
      destruct (Hh _ _ _ Hrun') as (new2 & E2 & H2).
      exists (new1 ++ new2). split; [now rewrite E2, E1, <- app_assoc|].
      now apply Forall_app.
    + intros [= <- <-]. exact (Hb _ _ _ Hrun).
Qed.

Lemma appends_for_each {A : Type} (P : event -> Prop) (body : A -> M unit) (l : list A) :
  (forall x, appends P (body x)) -> appends P (for_each body l).
Proof.
  intros Hbody. induction l as [|x l IH]; simpl.
  - apply appends_ret.
  - apply appends_bind; [apply Hbody|intros _; exact IH].
Qed.

Section Calls.

Variable c : collaborators.
Variable P : event -> Prop.

Lemma appends_is_in_history (link : option string) : appends P (is_in_history link).
Proof. apply appends_nothing. unfold is_in_history. now intros w r w' [= _ <-]. Qed.

Lemma appends_add_to_history (link : option string) : appends P (add_to_history link).
Proof. apply appends_nothing. unfold add_to_history. now intros w r w' [= _ <-]. Qed.

Lemma appends_find_filename_now (d : DownloadConfiguration) :
  appends P (find_filename_now c d).
Proof. apply appends_nothing. unfold find_filename_now. now intros w r w' [= _ <-]. Qed.

Lemma appends_datetime_lt (a b : datetime) : appends P (datetime_lt a b).
Proof.
  unfold datetime_lt. destruct (Bool.eqb (aware a) (aware b));
    [apply appends_ret|apply appends_raise].
Qed.

Lemma appends_re_search (pattern : string) (subject : option string) :
  P (EvSearch pattern subject) -> appends P (re_search c pattern subject).
Proof.
  intros H. unfold re_search. apply appends_bind; [now apply appends_emit|].
  intros _. destruct (re_compile c pattern); [|apply appends_raise].
  destruct subject; [apply appends_ret|apply appends_raise].
Qed.

Lemma appends_parser_parse (subject : option string) :
  P (EvParseDate subject) -> appends P (parser_parse c subject).
Proof.
  intros H. unfold parser_parse. apply appends_bind; [now apply appends_emit|].
  intros _. destruct subject; [apply appends_lift|apply appends_raise].
Qed.

Lemma appends_get (url : option string) : P (EvGet url) -> appends P (get c url).
Proof.
  intros H w r w'. unfold get.
  assert (G : trace (record (EvGet url) w) = trace w ++ [EvGet url] /\
              Forall P [EvGet url]) by (split; [reflexivity|now constructor]).
  destruct url; intros [= _ <-]; eexists; exact G.
Qed.

Lemma appends_write_file (path data : string) :
  P (EvWrite path data) -> appends P (write_file c path data).
Proof.
  intros H w r w'. unfold write_file.
  destruct (os_write c (files w) path data) as [fs'|e]; intros [= _ <-].
  - exists [EvWrite path data]. split; [reflexivity|]. now constructor.
  - exists []. rewrite app_nil_r. auto.
Qed.

Lemma appends_subprocess_run_check (argv : list string) :
  (forall outcome, P (EvRun argv outcome)) -> appends P (subprocess_run_check c argv).
Proof.
  intros H w r w'. unfold subprocess_run_check.
  destruct (youtube_dl c (trace w) argv (files w)) as [outcome fs'].
  cbv zeta. intros Hrun. exists [EvRun argv outcome]. split.
  - destruct outcome as [[| |]|]; injection Hrun as _ <-; reflexivity.
  - constructor; [apply H|constructor].
Qed.

End Calls.

(** One step of a proof that a method only appends calls of a kind: the
    rule for the head of the computation, the side condition on the call
    decided by evaluation. *)
Ltac call_ok := intros; cbv beta; repeat split; reflexivity.

Ltac appends_step :=
  first
    [ apply appends_ret
    | apply appends_raise
    | apply appends_lift
    | apply appends_emit; call_ok
    | apply appends_is_in_history
    | apply appends_add_to_history
    | apply appends_find_filename_now
    | apply appends_datetime_lt
    | apply appends_re_search; call_ok
    | apply appends_parser_parse; call_ok
    | apply appends_get; call_ok
    | apply appends_write_file; call_ok
    | apply appends_subprocess_run_check; call_ok
    | apply appends_try_except
    | apply appends_bind; [|intros ?]
    | match goal with
      | |- appends _ (match ?x with _ => _ end) => destruct x
      end ].

Ltac solve_appends := unfold log; repeat appends_step.

End Effects.

(** ** The eligibility check *)

Section Eligibility.

Variable c : collaborators.

(** C2: an entry whose link is in the history is refused, whatever its
    other fields and whatever the filter of the show: after the history
    has been asked, only the debug line is logged. *)
Theorem should_download_known_link (e : entry) (show_config : ShowConfiguration)
    (w : world) :
  History.is_in_history (history w) (e !! "link") = true ->
  should_download c e show_config w
  = (Ok false,
     record (EvLog Debug ("episode " +:+ quoted_s +:+ " is in history") [e !! "title"])
       (record (EvEntry e) w)).
Proof.
  intros Hknown. unfold should_download, bind, emit, is_in_history, log.
  cbn [history record]. rewrite Hknown. reflexivity.
Qed.

(** C4: without a filter block an entry that is not in the history is
    accepted at once, nothing but the entry being recorded: no regular
    expression, no date, no request; and whenever [should_download] makes
    a request (the release check), searches with a regular expression or
    parses a date, the show has a filter block. *)
Theorem should_download_without_filter (e : entry) (show_config : ShowConfiguration)
    (w : world) (r : result bool) (w' : world) :
  should_download c e show_config w = (r, w') ->
  (filter show_config = None ->
   History.is_in_history (history w) (e !! "link") = false ->
   r = Ok true /\ w' = record (EvEntry e) w)
  /\ (forall new, trace w' = trace w ++ new ->
      Exists (fun ev => is_request ev = true \/ is_library_call ev = true) new ->
      filter show_config <> None).
Proof.
  unfold should_download, bind, emit, is_in_history, log. cbn [history record].
  intros Hrun. split.
  - intros Hnone Hfresh. rewrite Hfresh, Hnone in Hrun.
    unfold ret in Hrun. injection Hrun as <- <-. done.
  - intros new Hnew Hreq Hnone. rewrite Hnone in Hrun.
    assert (Hquiet : Forall (fun ev => is_request ev = false
                                       /\ is_library_call ev = false) new).
    { destruct (History.is_in_history (history w) (e !! "link"));
        unfold ret in Hrun; injection Hrun as _ <-; cbn [trace record] in Hnew;
        rewrite <- ?app_assoc in Hnew; apply app_inv_head in Hnew as <-;
        repeat constructor. }
    apply Exists_exists in Hreq as (ev & Hin & Hev).
    rewrite Forall_forall in Hquiet. destruct (Hquiet ev Hin) as [Hr Hl].
    destruct Hev; congruence.
Qed.

(** C10, for an entry that is not in the history: with a filter whose
    regex and regex field are both set, an entry without that field makes
    [should_download] raise: [TypeError] from the search in a missing
    value, or [re.error] when the pattern does not even compile. *)
Theorem should_download_missing_field (e : entry) (show_config : ShowConfiguration)
    (w : world) (f : FilterConfiguration) (pattern field : string) :
  History.is_in_history (history w) (e !! "link") = false ->
  filter show_config = Some f ->
  regex f = Some pattern -> pattern <> EmptyString ->
  regex_field f = Some field -> field <> EmptyString ->
  e !! field = None ->
  should_download c e show_config w
  = (Raise (match re_compile c pattern with Some _ => TypeError | None => ReError end),
     record (EvSearch pattern None) (record (EvEntry e) w)).
Proof.
  intros Hfresh Hf Hregex Hp Hfield Hfd Hmissing.
  unfold should_download, bind, emit, is_in_history. cbn [history record].
  rewrite Hfresh, Hf. cbv zeta. rewrite Hregex, Hfield. cbn [default from_option id].
  destruct pattern as [|p0 pattern]; [done|]. destruct field as [|f0 field]; [done|].
  cbn [truthy andb]. rewrite Hmissing.
  unfold re_search, bind, emit. cbn [record history files trace].
  destruct (re_compile c (String p0 pattern)); reflexivity.
Qed.

End Eligibility.

Lemma should_download_known_link_witness :
  should_download Demo.good Demo.ep1
    (Demo.filtered_show "title") Demo.known_world
  = (Ok false,
     record (EvLog Debug ("episode " +:+ quoted_s +:+ " is in history")
               [Demo.ep1 !! "title"])
       (record (EvEntry Demo.ep1) Demo.known_world)).
Proof.
  apply (should_download_known_link
           Demo.good Demo.ep1 (Demo.filtered_show "title") Demo.known_world).
  vm_compute. reflexivity.
Defined.

Lemma should_download_without_filter_witness :
  (filter Demo.show = None ->
   History.is_in_history (history Demo.w0) (Demo.ep1 !! "link") = false ->
   Ok true = Ok true /\ record (EvEntry Demo.ep1) Demo.w0 = record (EvEntry Demo.ep1) Demo.w0)
  /\ (forall new, trace (record (EvEntry Demo.ep1) Demo.w0) = trace Demo.w0 ++ new ->
      Exists (fun ev => is_request ev = true \/ is_library_call ev = true) new ->
      filter Demo.show <> None).
Proof.
  apply (should_download_without_filter
           Demo.good Demo.ep1 Demo.show
           Demo.w0 (Ok true) (record (EvEntry Demo.ep1) Demo.w0)).
  vm_compute. reflexivity.
Defined.

Lemma should_download_missing_field_witness :
  should_download Demo.good Demo.ep1
    (Demo.filtered_show "summary") Demo.w0
  = (Raise TypeError,
     record (EvSearch "Ep" None) (record (EvEntry Demo.ep1) Demo.w0)).
Proof.
  apply (should_download_missing_field
           Demo.good Demo.ep1 (Demo.filtered_show "summary") Demo.w0
           {| regex := Some "Ep"; regex_field := Some "summary"; min_date := None |}
           "Ep" "summary").
  - vm_compute. reflexivity.
  - reflexivity.
  - reflexivity.
  - discriminate.
  - reflexivity.
  - discriminate.
  - vm_compute. reflexivity.
Defined.

(** C10 as stated fails for an entry whose link is in the history: the
    filter has a regex and a regex field, the entry lacks the field, and
    [should_download] returns [False] without raising. *)
Lemma should_download_missing_field_known_link :
  filter (Demo.filtered_show "summary")
  = Some {| regex := Some "Ep"; regex_field := Some "summary"; min_date := None |}
  /\ Demo.ep1 !! "summary" = None
  /\ fst (should_download Demo.good
            Demo.ep1 (Demo.filtered_show "summary") Demo.known_world) = Ok false.
Proof. vm_compute. repeat split; reflexivity. Qed.

(** ** The acquisition pipeline *)

Section Pipeline.

Import Effects.

Variable c : collaborators.

(** C1: [download_episode] records the link exactly when the downloader
    exits with code 0.  Whatever the downloader answers to the command
    line [download_episode] builds (the url, and the path of the name
    [find_filename] gives), it is run exactly once with that command line,
    and the link is in the history afterwards if and only if it exited
    with code 0 or the link was there before: after exit code 0 the
    history is the old one with the link added, after any other outcome
    (a non-zero exit code, a downloader that did not start) it is the old
    one.  Without a url or without a filename the downloader is not run
    and nothing changes. *)
Theorem download_episode_records_on_success (url : option string)
    (d : DownloadConfiguration) (w : world) :
  (forall u name outcome fs',
     url = Some u ->
     find_filename (files w) (now_year c (trace w)) d = Ok name ->
     youtube_dl c (trace w)
       ["youtube-dl"; u; "-o"; folder d +:+ "/" +:+ name +:+ ".%(ext)s"] (files w)
     = (outcome, fs') ->
     (History.is_in_history (history (snd (download_episode c url d w))) url = true
      <-> outcome = Exited 0 \/ History.is_in_history (history w) url = true)
     /\ (outcome = Exited 0 ->
         download_episode c url d w
         = (Ok tt,
            {| history := History.add_to_history (history w) url;
               files := fs';
               trace := trace w
                        ++ [EvRun ["youtube-dl"; u; "-o";
                                   folder d +:+ "/" +:+ name +:+ ".%(ext)s"]
                              (Exited 0)] |}))
     /\ (outcome <> Exited 0 ->
         history (snd (download_episode c url d w)) = history w
         /\ files (snd (download_episode c url d w)) = fs'
         /\ List.filter is_run (trace (snd (download_episode c url d w)))
            = List.filter is_run (trace w)
              ++ [EvRun ["youtube-dl"; u; "-o";
                         folder d +:+ "/" +:+ name +:+ ".%(ext)s"] outcome]))
  /\ ((url = None \/ exists ex, find_filename (files w) (now_year c (trace w)) d = Raise ex) ->
      snd (download_episode c url d w) = w).
Proof.
  split.
  - intros u name outcome fs' -> Hname Hrun.
    unfold download_episode, bind, find_filename_now, try_except. rewrite Hname.
    unfold subprocess_run_check, add_to_history, log, emit. rewrite Hrun. cbv zeta.
    assert (Hadd : History.is_in_history
                     (History.add_to_history (history w) (Some u)) (Some u) = true).
    { unfold History.is_in_history, History.add_to_history.
      apply bool_decide_eq_true, elem_of_union_l, elem_of_singleton. reflexivity. }
    destruct outcome as [code|]; [destruct code as [|p|p]|]; cbn;
      rewrite ?decide_True by reflexivity; rewrite ?decide_False by discriminate;
      cbn [snd trace history files record].
    + repeat split; try done. intros _. now left.
    + repeat split; try done.
      * intros H. now right.
      * now intros [[=]|H].
      * rewrite <- app_assoc, List.filter_app. reflexivity.
    + repeat split; try done.
      * intros H. now right.
      * now intros [[=]|H].
      * rewrite <- app_assoc, List.filter_app. reflexivity.
    + repeat split; try done.
      * intros H. now right.
      * now intros [[=]|H].
      * rewrite List.filter_app. reflexivity.
  - unfold download_episode, bind, find_filename_now, try_except.
    intros [->|[ex Hname]].
    + destruct (find_filename (files w) (now_year c (trace w)) d); reflexivity.
    + rewrite Hname. reflexivity.
Qed.

















(** A loop stops at the first turn that raises. *)
Lemma for_each_raises {A : Type} (body : A -> M unit) (pre : list A) (x : A)
    (post : list A) (w w1 w2 : world) (ex : exn) :
  for_each body pre w = (Ok tt, w1) ->
  body x w1 = (Raise ex, w2) ->
  for_each body (pre ++ x :: post) w = (Raise ex, w2).
Proof.
  revert w. induction pre as [|y pre IH]; intros w; cbn [for_each app].
  - unfold ret. intros [= <-] Hx. unfold bind. now rewrite Hx.
  - unfold bind. destruct (body y w) as [[[]|ey] wy]; [|discriminate].
    intros Hpre Hx. now apply IH.
Qed.



(** When [save_thumb] raises, it has written no file and run nothing. *)
Lemma save_thumb_failure (e : entry) (d : DownloadConfiguration)
    (w : world) (ex : exn) (w' : world) :
  save_thumb c e d w = (Raise ex, w') ->
  exists new,
    trace w' = trace w ++ new
    /\ Forall (fun ev => is_write ev = false /\ is_run ev = false) new.
Proof.
  unfold save_thumb, bind, find_filename_now.
  destruct (find_filename (files w) (now_year c (trace w)) d) as [name|e0].
  2:{ intros [= _ <-]. exists []. rewrite app_nil_r. auto. }
  destruct (get c (e !! "link") w) as [[html|e1] w1] eqn:Hget.
  2:{ intros [= _ <-].
      eapply (appends_get c (fun ev => is_write ev = false /\ is_run ev = false)); [done|].
      exact Hget. }
  assert (E1 : trace w1 = trace w ++ [EvGet (e !! "link")]).
  { unfold get in Hget. destruct (e !! "link"); now injection Hget as _ <-. }
  destruct (Py.match_og_image (Bytes.repr (content html))) as [thumb_url|].
  2:{ unfold raise. intros [= _ <-]. exists [EvGet (e !! "link")].
      split; [exact E1|]. repeat constructor. }
  unfold emit.
  destruct (get c (Some thumb_url) (record (EvPrint thumb_url) w1))
    as [[thumb|e2] w2] eqn:Hget2.
  - unfold write_file.
    destruct (os_write c (files w2) _ _) as [fs'|e3]; [discriminate|].
    intros [= _ <-]. unfold get in Hget2. injection Hget2 as _ <-.
    exists [EvGet (e !! "link"); EvPrint thumb_url; EvGet (Some thumb_url)].
    split; [|repeat constructor].
    cbn [trace record]. rewrite E1. now rewrite <- !app_assoc.
  - intros [= _ <-]. unfold get in Hget2. injection Hget2 as _ <-.
    exists [EvGet (e !! "link"); EvPrint thumb_url; EvGet (Some thumb_url)].
    split; [|repeat constructor].
    cbn [trace record]. rewrite E1. now rewrite <- !app_assoc.
Qed.

Lemma should_download_quiet (e : entry) (show : ShowConfiguration) :
  appends (fun ev => is_write ev = false /\ is_run ev = false)
    (should_download c e show).
Proof. unfold should_download, is_episode_released. solve_appends. Qed.

(** C7, as the code has it: [check_show] calls [save_thumb] first and has
    no handler around it.  When [save_thumb] raises for an accepted entry,
    the error comes out of [check_show] at once: from the moment the entry
    is taken up, no file is written (no metadata) and the downloader is
    not run, and the entries after it are not processed. *)
Theorem thumbnail_failure_aborts (show : ShowConfiguration) (w : world)
    (pre : list entry) (e : entry) (post : list entry)
    (w0 w1 w2 : world) (ex : exn) :
  rev (feedparser_parse c (trace w) (feed_url show)) = pre ++ e :: post ->
  for_each (check_entry c show) pre (record (EvFeed (feed_url show)) w) = (Ok tt, w0) ->
  should_download c e show w0 = (Ok true, w1) ->
  save_thumb c e (download show)
    (record (EvLog Info "downloading episode %s: %s" [e !! "title"; e !! "link"]) w1)
  = (Raise ex, w2) ->
  check_show c show w = (Raise ex, w2)
  /\ exists new,
       trace w2 = trace w0 ++ new
       /\ Forall (fun ev => is_write ev = false /\ is_run ev = false) new.
Proof.
  intros Hfeed Hpre Hwanted Hthumb. split.
  - unfold check_show. unfold bind at 1. cbv zeta. rewrite Hfeed.
    apply for_each_raises with (w1 := w0); [exact Hpre|].
    unfold check_entry. unfold bind at 1. rewrite Hwanted.
    unfold log. unfold bind at 1. unfold emit at 1.
    unfold bind at 1. now rewrite Hthumb.
  - destruct (should_download_quiet _ _ _ _ _ Hwanted) as (new1 & E1 & H1).
    destruct (save_thumb_failure _ _ _ _ _ Hthumb) as (new2 & E2 & H2).
    exists (new1 ++ EvLog Info "downloading episode %s: %s" [e !! "title"; e !! "link"]
            :: new2).
    split.
    + rewrite E2. cbn [trace record]. rewrite E1. now rewrite <- !app_assoc.
    + apply Forall_app. split; [exact H1|]. constructor; [done|exact H2].
Qed.

End Pipeline.

(** ** The pipeline on the demo world *)

Lemma download_episode_records_on_success_witness :
  (History.is_in_history
     (history (snd (download_episode Demo.good (Some "https://x/1") demo Demo.w0)))
     (Some "https://x/1") = true
   <-> Exited 0 = Exited 0
       \/ History.is_in_history (history Demo.w0) (Some "https://x/1") = true)
  /\ (Exited 0 = Exited 0 ->
      download_episode Demo.good (Some "https://x/1") demo Demo.w0
      = (Ok tt,
         {| history := History.add_to_history (history Demo.w0) (Some "https://x/1");
            files := {[ "dl" := ["Demo S24E01.mp4"] ]};
            trace := trace Demo.w0
                     ++ [EvRun ["youtube-dl"; "https://x/1"; "-o";
                                folder demo +:+ "/" +:+ "Demo S24E01" +:+ ".%(ext)s"]
                           (Exited 0)] |}))
  /\ (Exited 0 <> Exited 0 ->
      history (snd (download_episode Demo.good (Some "https://x/1") demo Demo.w0))
      = history Demo.w0
      /\ files (snd (download_episode Demo.good (Some "https://x/1") demo Demo.w0))
         = {[ "dl" := ["Demo S24E01.mp4"] ]}
      /\ List.filter is_run
           (trace (snd (download_episode Demo.good (Some "https://x/1") demo Demo.w0)))
         = List.filter is_run (trace Demo.w0)
           ++ [EvRun ["youtube-dl"; "https://x/1"; "-o";
                      folder demo +:+ "/" +:+ "Demo S24E01" +:+ ".%(ext)s"]
                 (Exited 0)]).
Proof.
  apply (proj1 (download_episode_records_on_success Demo.good (Some "https://x/1")
                  demo Demo.w0)
           "https://x/1" "Demo S24E01" (Exited 0) {[ "dl" := ["Demo S24E01.mp4"] ]}).
  - reflexivity.
  - vm_compute. reflexivity.
  - vm_compute. reflexivity.
Defined.

(** Both outcomes of the downloader on the demo world. *)
Example download_episode_exit_codes :
  History.is_in_history
    (history (snd (download_episode Demo.good (Some "https://x/1") demo Demo.w0)))
    (Some "https://x/1") = true
  /\ download_episode Demo.failing (Some "https://x/1") demo Demo.w0
     = (Ok tt,
        record (EvLog Error "error downloading %s" [Some "https://x/1"])
          (record (EvRun ["youtube-dl"; "https://x/1"; "-o"; "dl/Demo S24E01.%(ext)s"]
                     (Exited 1)) Demo.w0)).
Proof. vm_compute. split; reflexivity. Qed.


(** The feed lists the second episode first; the first episode is taken up
    first and gets number 01, the second gets 02: the metadata of each
    carries its own date and number, and the downloader is run for the
    first before the second is taken up. *)
Example numbered_in_publication_order :
  let w := snd (check_show Demo.good Demo.show Demo.w0) in
  feedparser_parse Demo.good [] (feed_url Demo.show) = [Demo.ep2; Demo.ep1]
  /\ fst (check_show Demo.good Demo.show Demo.w0) = Ok tt
  /\ entries_seen (trace w) = [Demo.ep1; Demo.ep2]
  /\ List.filter (fun ev => is_run ev || is_write ev
                            || match ev with EvEntry _ => true | _ => false end)
       (trace w)
     = [EvEntry Demo.ep1;
        EvWrite "dl/Demo S24E01-thumb.jpg" Demo.page;
        EvWrite "dl/Demo S24E01.nfo"
          (nfo_document None (Some "Ep1") "2024-01-10" 24 1);
        EvRun ["youtube-dl"; "https://x/1"; "-o"; "dl/Demo S24E01.%(ext)s"] (Exited 0);
        EvEntry Demo.ep2;
        EvWrite "dl/Demo S24E02-thumb.jpg" Demo.page;
        EvWrite "dl/Demo S24E02.nfo"
          (nfo_document None (Some "Ep2") "2024-01-17" 24 2);
        EvRun ["youtube-dl"; "https://x/2"; "-o"; "dl/Demo S24E02.%(ext)s"] (Exited 0)].
Proof. vm_compute. repeat split; reflexivity. Qed.



Lemma thumbnail_failure_aborts_witness :
  check_show Demo.bare Demo.show Demo.w0
  = (Raise AttributeError,
     record (EvGet (Demo.ep1 !! "link"))
       (record Demo.downloading
          (record (EvEntry Demo.ep1) (record (EvFeed (feed_url Demo.show)) Demo.w0))))
  /\ exists new,
       trace (record (EvGet (Demo.ep1 !! "link"))
                (record Demo.downloading
                   (record (EvEntry Demo.ep1)
                      (record (EvFeed (feed_url Demo.show)) Demo.w0))))
       = trace (record (EvFeed (feed_url Demo.show)) Demo.w0) ++ new
       /\ Forall (fun ev => is_write ev = false /\ is_run ev = false) new.
Proof.
  apply (thumbnail_failure_aborts Demo.bare Demo.show Demo.w0 [] Demo.ep1 []
           (record (EvFeed (feed_url Demo.show)) Demo.w0)
           (record (EvEntry Demo.ep1) (record (EvFeed (feed_url Demo.show)) Demo.w0))).
  - vm_compute. reflexivity.
  - reflexivity.
  - vm_compute. reflexivity.
  - vm_compute. reflexivity.
Defined.

(** C7 as stated fails: the entry is accepted, its page has no thumbnail
    tag, and [check_show] ends with the error of [save_thumb]: no metadata
    file is written, the downloader is not run, the link is not recorded. *)
Lemma thumbnail_failure_blocks_download :
  let run := check_show Demo.bare Demo.show Demo.w0 in
  fst (should_download Demo.bare Demo.ep1 Demo.show
         (record (EvFeed (feed_url Demo.show)) Demo.w0)) = Ok true
  /\ fst run = Raise AttributeError
  /\ List.filter is_write (trace (snd run)) = []
  /\ List.filter is_run (trace (snd run)) = []
  /\ files (snd run) = files Demo.w0
  /\ History.is_in_history (history (snd run)) (Demo.ep1 !! "link") = false.
Proof. vm_compute. repeat split; reflexivity. Qed.

(** ** Numerals: [str], the format field and [int] *)

Module Numerals.

Import StringFacts.

Lemma int_from_digit (acc : N) (x : ascii) (s : string) :
  Py.is_digit x = true ->
  Py.int_from 0 acc (String x s) = Py.int_from 0 (10 * acc + (N_of_ascii x - 48)) s.
Proof.
  intros Hx. cbn [Py.int_from]. now rewrite Names.decimal_head_digit.
Qed.

Lemma int_from_string_of_uint (d : Decimal.uint) (acc : N) :
  Py.int_from 0 acc (NilEmpty.string_of_uint d) = uint_value d acc.
Proof.
  revert acc. induction d as [|d IH|d IH|d IH|d IH|d IH|d IH|d IH|d IH|d IH|d IH];
    intros acc; cbn [NilEmpty.string_of_uint uint_value];
    [reflexivity|rewrite int_from_digit by reflexivity; rewrite IH; f_equal; cbn; lia..].
Qed.

Lemma of_uint_acc_value (d : Decimal.uint) (p : positive) :
  Npos (Pos.of_uint_acc d p) = uint_value d (Npos p).
Proof.
  revert p. induction d as [|d IH|d IH|d IH|d IH|d IH|d IH|d IH|d IH|d IH|d IH];
    intros p; cbn [Pos.of_uint_acc uint_value];
    [reflexivity|rewrite IH; f_equal; lia..].
Qed.

Lemma of_uint_value (d : Decimal.uint) : N.of_uint d = uint_value d 0.
Proof.
  unfold N.of_uint.
  induction d as [|d IH|d IH|d IH|d IH|d IH|d IH|d IH|d IH|d IH|d IH];
    cbn [Pos.of_uint uint_value];
    [reflexivity|exact IH|rewrite of_uint_acc_value; reflexivity..].
Qed.

(** [int(str(n))] is [n]. *)
Lemma int_str (n : N) : Py.int (Py.str n) = n.
Proof.
  unfold Py.int, Py.str. rewrite int_from_string_of_uint, <- of_uint_value.
  apply DecimalN.Unsigned.of_to.
Qed.

Lemma int_from_zeros (k : nat) (s : string) :
  Py.int_from 0 0 (Py.zeros k +:+ s) = Py.int_from 0 0 s.
Proof.
  induction k as [|k IH]; [reflexivity|].
  change (Py.zeros (S k) +:+ s) with (String "0" (Py.zeros k +:+ s)).
  rewrite int_from_digit by reflexivity. exact IH.
Qed.

(** Reading back a formatted number gives the number, whatever its size. *)
Lemma int_format (n : N) : Py.int (Py.format_02d n) = n.
Proof.
  unfold Py.format_02d, Py.int. cbv zeta. rewrite int_from_zeros. apply int_str.
Qed.

Lemma string_of_uint_digits (d : Decimal.uint) :
  Py.all_chars Py.is_digit (NilEmpty.string_of_uint d) = true.
Proof.
  induction d as [|d IH|d IH|d IH|d IH|d IH|d IH|d IH|d IH|d IH|d IH];
    cbn [NilEmpty.string_of_uint Py.all_chars]; [reflexivity|rewrite IH; reflexivity..].
Qed.

Lemma str_nonempty (n : N) : Py.nonempty (Py.str n) = true.
Proof.
  unfold Py.str. destruct n as [|p]; [reflexivity|].
  cbn [N.to_uint]. pose proof (DecimalPos.Unsigned.to_uint_nonnil p) as H.
  destruct (Pos.to_uint p); [congruence|reflexivity..].
Qed.

Lemma zeros_digits (k : nat) : Py.all_chars Py.is_digit (Py.zeros k) = true.
Proof. induction k as [|k IH]; simpl; [reflexivity|exact IH]. Qed.

Lemma format_digits (n : N) :
  Py.all_chars Py.is_digit (Py.format_02d n) = true
  /\ Py.nonempty (Py.format_02d n) = true.
Proof.
  unfold Py.format_02d. cbv zeta. split.
  - rewrite all_chars_app, zeros_digits. apply string_of_uint_digits.
  - pose proof (str_nonempty n) as H.
    destruct (Py.zeros _); [exact H|reflexivity].
Qed.

End Numerals.

(** ** More on the filename sequencer *)

Module SequencerFacts.

Import StringFacts Names.

(** The file that sorts last among the episode files is a matter of the
    set of episode files alone. *)
Lemma last_episode_file_same (d : DownloadConfiguration) (l l' : list string) :
  (forall x, is_episode_file d x = true -> (In x l <-> In x l')) ->
  last (episode_files d l) = last (episode_files d l').
Proof.
  intros Hsame. destruct (last (episode_files d l)) as [m|] eqn:Hlast.
  - symmetry. apply Sequencer.last_episode_file.
    apply Sequencer.last_episode_file in Hlast as (Hin & Hep & Hmax).
    repeat split; [now apply Hsame|exact Hep|].
    intros y Hy Hy'. apply Hmax; [now apply Hsame|exact Hy'].
  - symmetry. apply last_None, Sequencer.no_episode_files.
    apply last_None in Hlast. rewrite Sequencer.no_episode_files in Hlast.
    intros y Hy. destruct (is_episode_file d y) eqn:Hep; [|reflexivity].
    rewrite <- (Hlast y); [done|]. now apply Hsame.
Qed.

Lemma next_filename_same (d : DownloadConfiguration) (season : string)
    (l l' : list string) :
  (forall x, is_episode_file d x = true -> (In x l <-> In x l')) ->
  next_filename d season l = next_filename d season l'.
Proof.
  intros Hsame. unfold next_filename. now rewrite (last_episode_file_same d l l').
Qed.

(** Every name the sequencer returns is numbered, from 1 on. *)
Lemma next_filename_numbered (d : DownloadConfiguration) (season : string)
    (l : list string) (name : string) :
  next_filename d season l = Ok name ->
  exists n, 1 <= n /\ name = numbered d season n.
Proof.
  unfold next_filename. destruct (last (episode_files d l)) as [newest|].
  - cbv zeta. destruct (Py.match_filename (Py.splitext_root newest)) as [[g2 g3]|];
      [|discriminate].
    intros [= <-]. eexists. split; [|reflexivity]. lia.
  - intros [= <-]. exists 1. split; [lia|reflexivity].
Qed.

(** Where no S stands, the pattern of [write_nfo] finds nothing. *)
Lemma dotstar_S_absent (s : string) :
  Py.all_chars (fun x => negb (Ascii.eqb x "S")) s = true ->
  Py.dotstar Py.match_SdEd s = None.
Proof.
  induction s as [|x s IH]; [reflexivity|]. cbn [Py.all_chars Py.dotstar].
  intros [Hx Hs]%andb_prop. rewrite (IH Hs).
  assert (Hk : Py.match_SdEd (String x s) = None).
  { destruct (Ascii.eqb_spec x "S") as [->|Hne]; [done|].
    destruct x as [[] [] [] [] [] [] [] []]; done. }
  rewrite Hk. now destruct (Ascii.eqb x Py.newline).
Qed.

Lemma match_season_episode_generated (prefix season episode : string) :
  Py.all_chars (fun x => negb (Ascii.eqb x Py.newline)) prefix = true ->
  Py.all_chars Py.is_digit season = true -> nonempty season = true ->
  Py.all_chars Py.is_digit episode = true -> nonempty episode = true ->
  Py.match_season_episode (prefix +:+ " S" +:+ season +:+ "E" +:+ episode)
  = Some (season, episode).
Proof.
  intros Hp Hs Hs' He He'. unfold Py.match_season_episode.
  apply dotstar_found; [exact Hp|].
  change (" S" +:+ season +:+ "E" +:+ episode)
    with (String " " (String "S" (season +:+ String "E" episode))).
  cbn [Py.dotstar]. change (Ascii.eqb " " Py.newline) with false.
  change (Ascii.eqb "S" Py.newline) with false. cbv iota.
  rewrite dotstar_S_absent.
  - change (String "S" (season +:+ String "E" episode))
      with ("S" +:+ season +:+ "E" +:+ episode).
    now rewrite match_SdEd_generated.
  - rewrite all_chars_app. cbn [Py.all_chars].
    rewrite !digits_without by done. reflexivity.
Qed.

(** [sub in (a + b)] when the first character of [b] does not occur in
    [sub]: no occurrence runs across the joint. *)
Lemma prefix_app_other (sub a b : string) (x : ascii) :
  nonempty sub = true ->
  Py.all_chars (fun y => negb (Ascii.eqb y x)) sub = true ->
  String.prefix sub (a +:+ String x b) = String.prefix sub a.
Proof.
  revert a. induction sub as [|c sub IH]; intros a; [done|]. intros _ Hsub.
  cbn [Py.all_chars] in Hsub. apply andb_prop in Hsub as [Hc Hsub].
  destruct a as [|y a]; simpl.
  - destruct (ascii_dec c x) as [->|]; [|reflexivity].
    now rewrite Ascii.eqb_refl in Hc.
  - destruct (ascii_dec c y); [|reflexivity].
    destruct sub as [|c' sub']; [now destruct a|]. now apply IH.
Qed.

Lemma contains_app_other (sub a b : string) (x : ascii) :
  nonempty sub = true ->
  Py.all_chars (fun y => negb (Ascii.eqb y x)) sub = true ->
  Py.contains sub (a +:+ String x b)
  = Py.contains sub a || Py.contains sub (String x b).
Proof.
  intros Hne Hsub. induction a as [|y a IH].
  - rewrite (contains_unfold sub EmptyString). destruct sub; [done|]. reflexivity.
  - rewrite (contains_unfold sub (String y a)).
    change (String y a +:+ String x b) with (String y (a +:+ String x b)).
    rewrite (contains_unfold sub (String y (a +:+ String x b))). rewrite IH.
    change (String y (a +:+ String x b)) with (String y a +:+ String x b).
    rewrite prefix_app_other by done. now rewrite orb_assoc.
Qed.

(** [sub in (t + b)] when the first character of [sub] does not occur in
    [t]. *)
Lemma contains_skip (c : ascii) (sub t b : string) :
  Py.all_chars (fun y => negb (Ascii.eqb y c)) t = true ->
  Py.contains (String c sub) (t +:+ b) = Py.contains (String c sub) b.
Proof.
  induction t as [|y t IH]; [reflexivity|]. cbn [Py.all_chars].
  intros [Hy Ht]%andb_prop.
  change (String y t +:+ b) with (String y (t +:+ b)).
  rewrite contains_unfold. rewrite (IH Ht). simpl.
  destruct (ascii_dec c y) as [->|]; [|reflexivity].
  now rewrite Ascii.eqb_refl in Hy.
Qed.

(** A name of the sequencer with an ending other than the media file's is
    no episode file, unless the prefix itself holds [.mp4]. *)
Lemma sidecar_is_no_episode_file (d : DownloadConfiguration) (season : string)
    (n : N) (ending : string) :
  Py.contains ".mp4" (filename d) = false ->
  Py.all_chars Py.is_digit season = true ->
  Py.contains ".mp4" ending = false ->
  is_episode_file d (numbered d season n +:+ ending) = false.
Proof.
  intros Hprefix Hseason Hending. unfold is_episode_file. apply andb_false_intro2.
  unfold numbered. rewrite !app_assoc.
  change (" S" +:+ season +:+ "E" +:+ Py.format_02d n +:+ ending)
    with (String " " ("S" +:+ season +:+ "E" +:+ Py.format_02d n +:+ ending)).
  rewrite contains_app_other by done. rewrite Hprefix. cbn [orb].
  replace (String " " ("S" +:+ season +:+ "E" +:+ Py.format_02d n +:+ ending))
    with ((" S" +:+ season +:+ "E" +:+ Py.format_02d n) +:+ ending)
    by now rewrite !app_assoc.
  rewrite contains_skip; [exact Hending|].
  change (" S" +:+ season +:+ "E" +:+ Py.format_02d n)
    with (String " " (String "S" (season +:+ String "E" (Py.format_02d n)))).
  cbn [Py.all_chars]. rewrite all_chars_app. cbn [Py.all_chars].
  destruct (Numerals.format_digits n) as [Hn _].
  rewrite !digits_without by done. reflexivity.
Qed.

End SequencerFacts.

(** ** Further properties of [find_filename] and [write_nfo] *)

(** X1: [find_filename] depends on the folder only through the set of
    names that pass its filter: the order in which [os.listdir] returns
    the names, and files that do not pass the filter, make no difference. *)
Theorem find_filename_listing_irrelevant (fs fs' : filesystem) (year : N)
    (d : DownloadConfiguration) (l l' : list string) :
  fs !! folder d = Some l ->
  fs' !! folder d = Some l' ->
  (forall x, is_episode_file d x = true -> (In x l <-> In x l')) ->
  find_filename fs year d = find_filename fs' year d.
Proof.
  intros Hl Hl' Hsame. unfold find_filename. rewrite Hl, Hl'.
  now apply SequencerFacts.next_filename_same.
Qed.

Lemma find_filename_listing_irrelevant_witness :
  find_filename {[ "dl" := ["Demo S24E02.mp4"; "Demo S24E01.mp4"] ]} 2024 demo
  = find_filename
      {[ "dl" := ["notes.txt"; "Demo S24E01.mp4"; "Demo S24E02.nfo"; "Demo S24E02.mp4"] ]}
      2024 demo.
Proof.
  apply (find_filename_listing_irrelevant
           {[ "dl" := ["Demo S24E02.mp4"; "Demo S24E01.mp4"] ]}
           {[ "dl" := ["notes.txt"; "Demo S24E01.mp4"; "Demo S24E02.nfo";
                       "Demo S24E02.mp4"] ]}
           2024 demo
           ["Demo S24E02.mp4"; "Demo S24E01.mp4"]
           ["notes.txt"; "Demo S24E01.mp4"; "Demo S24E02.nfo"; "Demo S24E02.mp4"]).
  - reflexivity.
  - reflexivity.
  - intros x Hx. split.
    + intros [<-|[<-|[]]]; simpl; auto.
    + intros [<-|[<-|[<-|[<-|[]]]]]; simpl; auto; vm_compute in Hx; discriminate.
Defined.

(** X2: every name [find_filename] returns is the prefix, the current
    season token and a number from 1 on; with a prefix free of line
    breaks, the pattern of [write_nfo] matches that name and reads back
    the year without century and that number. *)
Theorem find_filename_read_back (fs : filesystem) (year : N)
    (d : DownloadConfiguration) (name : string) :
  Py.all_chars (fun x => negb (Ascii.eqb x Py.newline)) (filename d) = true ->
  find_filename fs year d = Ok name ->
  exists n,
    1 <= n
    /\ name = numbered d (season_token year) n
    /\ Py.match_season_episode name = Some (season_token year, Py.format_02d n)
    /\ Py.int (season_token year) = year mod 100
    /\ Py.int (Py.format_02d n) = n.
Proof.
  intros Hprefix. unfold find_filename.
  destruct (fs !! folder d) as [l|]; [|discriminate].
  intros (n & Hn & ->)%SequencerFacts.next_filename_numbered.
  exists n. repeat split; try done.
  - destruct (StringFacts.season_token_digits year) as [Hs Hs'].
    destruct (Numerals.format_digits n) as [He He'].
    now apply SequencerFacts.match_season_episode_generated.
  - apply Numerals.int_format.
  - apply Numerals.int_format.
Qed.

Lemma find_filename_read_back_witness :
  exists n,
    1 <= n
    /\ "Demo S24E124" = numbered demo (season_token 2024) n
    /\ Py.match_season_episode "Demo S24E124"
       = Some (season_token 2024, Py.format_02d n)
    /\ Py.int (season_token 2024) = 2024 mod 100
    /\ Py.int (Py.format_02d n) = n.
Proof.
  apply (find_filename_read_back {[ "dl" := ["Demo S24E123.mp4"] ]} 2024 demo
           "Demo S24E124").
  - reflexivity.
  - reflexivity.
Defined.

(** X3: writing the metadata file and the thumbnail of a returned name does
    not change what [find_filename] returns, so the three steps of one
    entry agree on the name, as long as the prefix does not itself hold
    [.mp4]. *)
Theorem find_filename_ignores_sidecars (fs fs' : filesystem) (year : N)
    (d : DownloadConfiguration) (l : list string) (name : string) :
  Py.contains ".mp4" (filename d) = false ->
  fs !! folder d = Some l ->
  find_filename fs year d = Ok name ->
  fs' !! folder d
  = Some (create_file (name +:+ ".nfo") (create_file (name +:+ "-thumb.jpg") l)) ->
  find_filename fs' year d = Ok name.
Proof.
  intros Hprefix Hl Hname Hl'. rewrite <- Hname.
  unfold find_filename in *. rewrite Hl in *. rewrite Hl'.
  apply SequencerFacts.next_filename_numbered in Hname as (n & _ & ->).
  apply SequencerFacts.next_filename_same. intros x Hx.
  destruct (StringFacts.season_token_digits year) as [Hs _].
  rewrite !Sequencer.create_file_In. split; [|tauto].
  intros [->|[->|Hin]]; [| |exact Hin].
  - now rewrite SequencerFacts.sidecar_is_no_episode_file in Hx.
  - now rewrite SequencerFacts.sidecar_is_no_episode_file in Hx.
Qed.

Lemma find_filename_ignores_sidecars_witness :
  find_filename
    {[ "dl" := ["Demo S24E03.nfo"; "Demo S24E03-thumb.jpg"; "Demo S24E02.mp4"] ]}
    2024 demo
  = Ok "Demo S24E03".
Proof.
  apply (find_filename_ignores_sidecars
           {[ "dl" := ["Demo S24E02.mp4"] ]}
           {[ "dl" := ["Demo S24E03.nfo"; "Demo S24E03-thumb.jpg"; "Demo S24E02.mp4"] ]}
           2024 demo ["Demo S24E02.mp4"] "Demo S24E03").
  - reflexivity.
  - reflexivity.
  - reflexivity.
  - reflexivity.
Defined.

(** With a prefix that holds [.mp4] the thumbnail does count as an episode
    file, and the metadata file gets the next number. *)
Example sidecar_counted :
  let d := {| folder := "dl"; filename := "Show.mp4" |} in
  find_filename {[ "dl" := [] ]} 2024 d = Ok "Show.mp4 S24E01"
  /\ find_filename {[ "dl" := ["Show.mp4 S24E01-thumb.jpg"] ]} 2024 d
     = Ok "Show.mp4 S24E02".
Proof. vm_compute. split; reflexivity. Qed.

Lemma create_below_last (d : DownloadConfiguration) (l : list string) (m x : string) :
  last (episode_files d l) = Some m ->
  StringOrder.le x m ->
  last (episode_files d (create_file x l)) = Some m.
Proof.
  intros Hlast Hx. apply Sequencer.last_episode_file.
  apply Sequencer.last_episode_file in Hlast as (Hin & Hep & Hmax).
  repeat split; try done.
  - apply Sequencer.create_file_In. now right.
  - intros y [->|Hy]%Sequencer.create_file_In Hy'; [exact Hx|now apply Hmax].
Qed.

(** X4: the limit of two digits.  Once the episode file that sorts last is
    number 99 of the season, every call returns number 100, however often
    the sequencer is called and the returned file created: the name of
    episode 100 sorts before that of episode 99. *)
Theorem sequencer_stuck_at_100 (n : nat) (year : N) (d : DownloadConfiguration)
    (fs : filesystem) (l : list string) :
  Py.all_chars (fun x => negb (Ascii.eqb x Py.newline)) (filename d) = true ->
  fs !! folder d = Some l ->
  last (episode_files d l) = Some (numbered d (season_token year) 99 +:+ ".mp4") ->
  sequencer_rounds n year d fs
  = Ok (replicate n (numbered d (season_token year) 100)).
Proof.
  intros Hprefix. revert fs l. induction n as [|n IH]; intros fs l Hl Hlast;
    [reflexivity|].
  cbn [sequencer_rounds replicate]. unfold find_filename. rewrite Hl.
  rewrite (Sequencer.next_filename_counts d year l 99) by (done || (right; split; [lia|done])).
  cbn [default]. cbv zeta.
  rewrite (IH _ (create_file (numbered d (season_token year) (99 + 1) +:+ ".mp4") l)).
  - reflexivity.
  - apply lookup_insert_eq.
  - apply create_below_last; [exact Hlast|].
    unfold string_le, numbered.
    replace ((filename d +:+ " S" +:+ season_token year +:+ "E" +:+ Py.format_02d (99 + 1))
             +:+ ".mp4")
      with ((filename d +:+ " S" +:+ season_token year)
            +:+ String "E" (Py.format_02d (99 + 1) +:+ ".mp4"))
      by now rewrite !StringFacts.app_assoc.
    replace ((filename d +:+ " S" +:+ season_token year +:+ "E" +:+ Py.format_02d 99)
             +:+ ".mp4")
      with ((filename d +:+ " S" +:+ season_token year)
            +:+ String "E" (Py.format_02d 99 +:+ ".mp4"))
      by now rewrite !StringFacts.app_assoc.
    rewrite StringOrder.str_leb_joint by reflexivity. reflexivity.
Qed.

Lemma sequencer_stuck_at_100_witness :
  sequencer_rounds 3 2024 demo {[ "dl" := ["Demo S24E99.mp4"; "Demo S24E98.mp4"] ]}
  = Ok (replicate 3 (numbered demo (season_token 2024) 100)).
Proof.
  apply (sequencer_stuck_at_100 3 2024 demo
           {[ "dl" := ["Demo S24E99.mp4"; "Demo S24E98.mp4"] ]}
           ["Demo S24E99.mp4"; "Demo S24E98.mp4"]).
  - reflexivity.
  - reflexivity.
  - reflexivity.
Defined.


(** ** What a computation keeps *)

Module Keeps.

Section Rules.

Context {B : Type} (view : world -> B).
Hypothesis view_record : forall ev w, view (record ev w) = view w.

Lemma keeps_ret {A : Type} (a : A) : keeps view (ret a).
Proof. unfold ret. now intros w r w' [= _ <-]. Qed.

Lemma keeps_raise {A : Type} (e : exn) : keeps view (@raise A e).
Proof. unfold raise. now intros w r w' [= _ <-]. Qed.

Lemma keeps_lift {A : Type} (x : result A) : keeps view (lift x).
Proof. unfold lift. now intros w r w' [= _ <-]. Qed.

Lemma keeps_emit (ev : event) : keeps view (emit ev).
Proof. unfold emit. intros w r w' [= _ <-]. apply view_record. Qed.

Lemma keeps_bind {A C : Type} (m : M A) (k : A -> M C) :
  keeps view m -> (forall a, keeps view (k a)) -> keeps view (bind m k).
Proof.
  intros Hm Hk w r w'. unfold bind.
  destruct (m w) as [[a|e] w1] eqn:Hrun.
  - intros Hrun'. rewrite (Hk a _ _ _ Hrun'). exact (Hm _ _ _ Hrun).
  - intros [= _ <-]. exact (Hm _ _ _ Hrun).
Qed.

Lemma keeps_for_each {A : Type} (body : A -> M unit) (l : list A) :
  (forall x, keeps view (body x)) -> keeps view (for_each body l).
Proof.
  intros Hbody. induction l as [|x l IH]; simpl.
  - apply keeps_ret.
  - apply keeps_bind; [apply Hbody|intros _; exact IH].
Qed.

Variable c : collaborators.

Lemma keeps_is_in_history (link : option string) : keeps view (is_in_history link).
Proof. unfold is_in_history. now intros w r w' [= _ <-]. Qed.

Lemma keeps_find_filename_now (d : DownloadConfiguration) :
  keeps view (find_filename_now c d).
Proof. unfold find_filename_now. now intros w r w' [= _ <-]. Qed.

Lemma keeps_datetime_lt (a b : datetime) : keeps view (datetime_lt a b).
Proof.
  unfold datetime_lt. destruct (Bool.eqb (aware a) (aware b));
    [apply keeps_ret|apply keeps_raise].
Qed.

Lemma keeps_re_search (pattern : string) (subject : option string) :
  keeps view (re_search c pattern subject).
Proof.
  unfold re_search. apply keeps_bind; [apply keeps_emit|].
  intros _. destruct (re_compile c pattern); [|apply keeps_raise].
  destruct subject; [apply keeps_ret|apply keeps_raise].
Qed.

Lemma keeps_parser_parse (subject : option string) :
  keeps view (parser_parse c subject).
Proof.
  unfold parser_parse. apply keeps_bind; [apply keeps_emit|].
  intros _. destruct subject; [apply keeps_lift|apply keeps_raise].
Qed.

Lemma keeps_get (url : option string) : keeps view (get c url).
Proof.
  unfold get. intros w r w'. destruct url; intros [= _ <-]; apply view_record.
Qed.

(** Writing a file keeps what does not depend on the files. *)
Lemma keeps_write_file (path data : string) :
  (forall w fs tr,
     view {| history := history w; files := fs; trace := tr |} = view w) ->
  keeps view (write_file c path data).
Proof.
  intros Hfiles w r w'. unfold write_file.
  destruct (os_write c (files w) path data) as [fs'|e]; intros [= _ <-];
    [apply Hfiles|reflexivity].
Qed.

End Rules.

Ltac keeps_step :=
  first
    [ apply keeps_ret
    | apply keeps_raise
    | apply keeps_lift
    | apply keeps_emit; intros; reflexivity
    | apply keeps_is_in_history
    | apply keeps_find_filename_now
    | apply keeps_datetime_lt
    | apply keeps_re_search; intros; reflexivity
    | apply keeps_parser_parse; intros; reflexivity
    | apply keeps_get; intros; reflexivity
    | apply keeps_write_file; intros; reflexivity
    | apply keeps_bind; [|intros ?]
    | match goal with
      | |- keeps _ (match ?x with _ => _ end) => destruct x
      end ].

Ltac solve_keeps := unfold log; repeat keeps_step.

Lemma should_download_keeps_stores (c : collaborators) (e : entry)
    (show : ShowConfiguration) :
  keeps stores (should_download c e show).
Proof. unfold should_download, is_episode_released. solve_keeps. Qed.

Lemma save_thumb_keeps_history (c : collaborators) (e : entry)
    (d : DownloadConfiguration) :
  keeps history (save_thumb c e d).
Proof. unfold save_thumb. solve_keeps. Qed.

Lemma write_nfo_keeps_history (c : collaborators) (e : entry)
    (d : DownloadConfiguration) :
  keeps history (write_nfo c e d).
Proof. unfold write_nfo. solve_keeps. Qed.

End Keeps.

(** ** Further properties of the eligibility check *)

Section EligibilityFacts.

Variable c : collaborators.

(** X5: [should_download] only reads: whatever it returns or raises, the
    history and the folders are as before. *)
Theorem should_download_read_only (e : entry) (show : ShowConfiguration) (w : world) :
  history (snd (should_download c e show w)) = history w
  /\ files (snd (should_download c e show w)) = files w.
Proof.
  destruct (should_download c e show w) as [r w'] eqn:Hrun.
  pose proof (Keeps.should_download_keeps_stores c e show w r w' Hrun) as H.
  unfold stores in H. injection H as Hh Hf. now split.
Qed.

(** X6: an entry whose field does not fit the regex is refused at once:
    after the search only the debug line is logged, no date is parsed and
    no page requested. *)
Theorem should_download_regex_rejects (e : entry) (show : ShowConfiguration)
    (w : world) (f : FilterConfiguration) (pattern field subject : string)
    (found : string -> bool) :
  History.is_in_history (history w) (e !! "link") = false ->
  filter show = Some f ->
  regex f = Some pattern -> pattern <> EmptyString ->
  regex_field f = Some field -> field <> EmptyString ->
  e !! field = Some subject ->
  re_compile c pattern = Some found ->
  found subject = false ->
  should_download c e show w
  = (Ok false,
     record (EvLog Debug ("episode " +:+ quoted_s +:+ " does not fit regex")
               [e !! "title"])
       (record (EvSearch pattern (Some subject)) (record (EvEntry e) w))).
Proof.
  intros Hfresh Hf Hregex Hp Hfield Hfd Hsubject Hcompile Hfound.
  unfold should_download, bind, emit, is_in_history. cbn [history record].
  rewrite Hfresh, Hf. cbv zeta. rewrite Hregex, Hfield. cbn [default from_option id].
  destruct pattern as [|p0 pattern]; [done|]. destruct field as [|f0 field]; [done|].
  cbn [truthy andb]. rewrite Hsubject.
  unfold re_search, bind, emit. cbn [record history files trace].
  rewrite Hcompile. unfold ret. rewrite Hfound. reflexivity.
Qed.

(** X7: with a minimum date and no active regex, the two dates are parsed
    and compared, and no page is requested before that.  When both dates
    carry a time zone, or neither does, an entry published before the
    minimum date is refused.  When one carries a time zone and the other
    does not (the date of a feed, with its offset from UTC, against a
    plain minimum date), the comparison raises [TypeError]: the entry is
    neither refused nor accepted. *)
Theorem should_download_before_min_date (e : entry) (show : ShowConfiguration)
    (w : world) (f : FilterConfiguration) (minimum published : string)
    (dmin dentry : datetime) :
  History.is_in_history (history w) (e !! "link") = false ->
  filter show = Some f ->
  truthy (regex f) && truthy (regex_field f) = false ->
  min_date f = Some minimum -> minimum <> EmptyString ->
  dateutil_parse c minimum = Ok dmin ->
  e !! "published" = Some published ->
  dateutil_parse c published = Ok dentry ->
  (aware dentry = aware dmin ->
   (instant dentry < instant dmin)%Z ->
   should_download c e show w
   = (Ok false,
      record (EvLog Debug ("episode " +:+ quoted_s +:+ " is before mindate")
                [e !! "title"])
        (record (EvParseDate (Some published))
           (record (EvParseDate (Some minimum)) (record (EvEntry e) w)))))
  /\ (aware dentry <> aware dmin ->
      should_download c e show w
      = (Raise TypeError,
         record (EvParseDate (Some published))
           (record (EvParseDate (Some minimum)) (record (EvEntry e) w)))).
Proof.
  intros Hfresh Hf Hoff Hmin Hne Hdmin Hpub Hdentry.
  unfold should_download, bind, emit, is_in_history. cbn [history record].
  rewrite Hfresh, Hf. cbv zeta. rewrite Hoff. unfold ret at 1.
  rewrite Hmin. destruct minimum as [|m0 minimum]; [done|]. cbn [truthy].
  unfold parser_parse, bind, emit, lift. cbn [record history files trace].
  rewrite Hdmin, Hpub, Hdentry. unfold datetime_lt. split.
  - intros Haware Hlt. rewrite Haware, Bool.eqb_reflx.
    unfold ret. apply Z.ltb_lt in Hlt. rewrite Hlt. reflexivity.
  - intros Haware. apply Bool.eqb_false_iff in Haware. rewrite Haware. reflexivity.
Qed.

(** X8: with a minimum date, an entry without a [published] field makes
    [should_download] raise [TypeError] (the date parser is given [None]). *)
Theorem should_download_missing_published (e : entry) (show : ShowConfiguration)
    (w : world) (f : FilterConfiguration) (minimum : string) (dmin : datetime) :
  History.is_in_history (history w) (e !! "link") = false ->
  filter show = Some f ->
  truthy (regex f) && truthy (regex_field f) = false ->
  min_date f = Some minimum -> minimum <> EmptyString ->
  dateutil_parse c minimum = Ok dmin ->
  e !! "published" = None ->
  should_download c e show w
  = (Raise TypeError,
     record (EvParseDate None)
       (record (EvParseDate (Some minimum)) (record (EvEntry e) w))).
Proof.
  intros Hfresh Hf Hoff Hmin Hne Hdmin Hpub.
  unfold should_download, bind, emit, is_in_history. cbn [history record].
  rewrite Hfresh, Hf. cbv zeta. rewrite Hoff. unfold ret at 1.
  rewrite Hmin. destruct minimum as [|m0 minimum]; [done|]. cbn [truthy].
  unfold parser_parse, bind, emit, lift. cbn [record history files trace].
  rewrite Hdmin, Hpub. reflexivity.
Qed.

(** X9: a filter block that sets neither an active regex nor a minimum date
    still gates on the release check: the entry is accepted exactly when
    the text of its page holds the availability marker, and a failed
    request is raised to the caller. *)
Theorem should_download_release_decides (e : entry) (show : ShowConfiguration)
    (w : world) (f : FilterConfiguration) (url : string) :
  History.is_in_history (history w) (e !! "link") = false ->
  filter show = Some f ->
  truthy (regex f) && truthy (regex_field f) = false ->
  truthy (min_date f) = false ->
  e !! "link" = Some url ->
  fst (should_download c e show w)
  = match requests_get c (trace w ++ [EvEntry e]) url with
    | Ok page => Ok (Py.contains "verfügbar bis" (text page))
    | Raise ex => Raise ex
    end.
Proof.
  intros Hfresh Hf Hoff Hdate Hurl.
  unfold should_download, bind, emit, is_in_history. cbn [history record].
  rewrite Hfresh, Hf. cbv zeta. rewrite Hoff. unfold ret at 1.
  rewrite Hdate. unfold ret at 1.
  unfold is_episode_released, bind, get. rewrite Hurl. cbn [trace record].
  destruct (requests_get c (trace w ++ [EvEntry e]) url) as [page|ex]; [|reflexivity].
  unfold ret, log, emit.
  now destruct (Py.contains "verfügbar bis" (text page)).
Qed.

End EligibilityFacts.

(** ** The history over a whole run *)

Module Accounting.

Import Effects Keeps.

Ltac history_eq :=
  cbn; rewrite ?(left_id_L (∅ : History.t) (∪)), ?(right_id_L (∅ : History.t) (∪));
  reflexivity.

Lemma downloaded_app (a b : list event) :
  downloaded (a ++ b) = downloaded a ++ downloaded b.
Proof. apply omap_app. Qed.

Lemma downloaded_none (l : list event) :
  Forall (fun ev => downloaded_url ev = None) l -> downloaded l = [].
Proof.
  induction 1 as [|ev l Hev _ IH]; [reflexivity|].
  unfold downloaded in *. cbn [omap list_omap]. now rewrite Hev.
Qed.

Lemma accounts_quiet {A : Type} (m : M A) :
  keeps history m -> appends (fun ev => downloaded_url ev = None) m -> accounts m.
Proof.
  intros Hk Ha w r w' Hrun. destruct (Ha _ _ _ Hrun) as (new & E & Hnew).
  exists new. split; [exact E|].
  rewrite (Hk _ _ _ Hrun), (downloaded_none new Hnew). history_eq.
Qed.

Lemma accounts_bind {A B : Type} (m : M A) (k : A -> M B) :
  accounts m -> (forall a, accounts (k a)) -> accounts (bind m k).
Proof.
  intros Hm Hk w r w'. unfold bind.
  destruct (m w) as [[a|e] w1] eqn:Hrun.
  - intros Hrun'. destruct (Hm _ _ _ Hrun) as (new1 & E1 & H1).
    destruct (Hk a _ _ _ Hrun') as (new2 & E2 & H2).
    exists (new1 ++ new2). split; [now rewrite E2, E1, <- app_assoc|].
    rewrite H2, H1, downloaded_app, list_to_set_app_L.
    rewrite (comm_L (∪) (list_to_set (downloaded new1)) (list_to_set (downloaded new2))).
    apply (assoc_L (∪)).
  - intros [= <- <-]. exact (Hm _ _ _ Hrun).
Qed.

Lemma accounts_for_each {A : Type} (body : A -> M unit) (l : list A) :
  (forall x, accounts (body x)) -> accounts (for_each body l).
Proof.
  intros Hbody. induction l as [|x l IH]; simpl.
  - apply accounts_quiet; [apply keeps_ret|apply appends_ret].
  - apply accounts_bind; [apply Hbody|intros _; exact IH].
Qed.

Section Methods.

Variable c : collaborators.

(** The one place where the history changes. *)
Lemma accounts_download_episode (url : option string) (d : DownloadConfiguration) :
  accounts (download_episode c url d).
Proof.
  intros w r w'. unfold download_episode, bind, find_filename_now, try_except.
  destruct (find_filename (files w) (now_year c (trace w)) d) as [name|e].
  2:{ intros [= _ <-]. exists []. rewrite app_nil_r. split; [done|]. history_eq. }
  destruct url as [u|].
  2:{ unfold raise. cbn. intros [= _ <-]. exists []. rewrite app_nil_r.
      split; [done|]. history_eq. }
  unfold subprocess_run_check, add_to_history, log, emit.
  destruct (youtube_dl c (trace w) _ (files w)) as [outcome fs'].
  cbv zeta. destruct outcome as [code|].
  - destruct code as [|p|p]; cbn; intros [= _ <-]; cbn [trace history record].
    + eexists. split; [reflexivity|]. unfold History.add_to_history. history_eq.
    + eexists. split; [symmetry; apply app_assoc|]. history_eq.
    + eexists. split; [symmetry; apply app_assoc|]. history_eq.
  - cbn. intros [= _ <-]. cbn [trace history record].
    eexists. split; [reflexivity|]. history_eq.
Qed.

Lemma accounts_should_download (e : entry) (show : ShowConfiguration) :
  accounts (should_download c e show).
Proof.
  apply accounts_quiet.
  - unfold should_download, is_episode_released. solve_keeps.
  - unfold should_download, is_episode_released. solve_appends.
Qed.

Lemma accounts_save_thumb (e : entry) (d : DownloadConfiguration) :
  accounts (save_thumb c e d).
Proof.
  apply accounts_quiet; [apply save_thumb_keeps_history|].
  unfold save_thumb. solve_appends.
Qed.

Lemma accounts_write_nfo (e : entry) (d : DownloadConfiguration) :
  accounts (write_nfo c e d).
Proof.
  apply accounts_quiet; [apply write_nfo_keeps_history|].
  unfold write_nfo. solve_appends.
Qed.

Lemma accounts_log (level : log_level) (template : string) (args : list (option string)) :
  accounts (log level template args).
Proof.
  apply accounts_quiet; [unfold log; solve_keeps|unfold log; solve_appends].
Qed.

Lemma accounts_check_entry (show : ShowConfiguration) (e : entry) :
  accounts (check_entry c show e).
Proof.
  unfold check_entry. apply accounts_bind; [apply accounts_should_download|].
  intros [|].
  - apply accounts_bind; [apply accounts_log|intros _].
    apply accounts_bind; [apply accounts_save_thumb|intros _].
    apply accounts_bind; [apply accounts_write_nfo|intros _].
    apply accounts_download_episode.
  - apply accounts_quiet; [apply keeps_ret|apply appends_ret].
Qed.

Lemma accounts_check_show (show : ShowConfiguration) : accounts (check_show c show).
Proof.
  unfold check_show. apply accounts_bind.
  - intros w r w' [= _ <-]. exists [EvFeed (feed_url show)].
    split; [reflexivity|]. history_eq.
  - intros entries. cbv zeta. apply accounts_for_each, accounts_check_entry.
Qed.

Lemma accounts_check_all_shows (shows : list ShowConfiguration) :
  accounts (check_all_shows c shows).
Proof.
  unfold check_all_shows. apply accounts_bind; [apply accounts_log|intros _].
  apply accounts_bind; [|intros _; apply accounts_log].
  apply accounts_for_each, accounts_check_show.
Qed.

End Methods.

End Accounting.

(** ** Further properties of the pipeline *)

Section PipelineFacts.

Variable c : collaborators.

(** X10: over a whole run of [check_all_shows], however it ends, the
    history afterwards is the history before together with the links
    whose downloader run exited with code 0; no link is ever removed and
    none is recorded without a successful download. *)
Theorem check_all_shows_history (shows : list ShowConfiguration) (w : world) :
  exists new,
    trace (snd (check_all_shows c shows w)) = trace w ++ new
    /\ history (snd (check_all_shows c shows w))
       = list_to_set (downloaded new) ∪ history w.
Proof.
  destruct (check_all_shows c shows w) as [r w'] eqn:Hrun.
  exact (Accounting.accounts_check_all_shows c shows w r w' Hrun).
Qed.


End PipelineFacts.

Section PipelineFacts2.

Variable c : collaborators.

Lemma should_download_known (e : entry) (show : ShowConfiguration) (w : world) :
  History.is_in_history (history w) (e !! "link") = true ->
  check_entry c show e w
  = (Ok tt,
     record (EvLog Debug ("episode " +:+ quoted_s +:+ " is in history") [e !! "title"])
       (record (EvEntry e) w)).
Proof.
  intros Hknown. unfold check_entry, should_download, bind, emit, is_in_history, log.
  cbn [history record]. rewrite Hknown. reflexivity.
Qed.

Lemma for_each_known (show : ShowConfiguration) (l : list entry) (w : world) :
  (forall e, In e l -> History.is_in_history (history w) (e !! "link") = true) ->
  exists w',
    for_each (check_entry c show) l w = (Ok tt, w')
    /\ history w' = history w /\ files w' = files w
    /\ exists new,
         trace w' = trace w ++ new
         /\ Forall (fun ev => is_request ev = false /\ is_write ev = false
                              /\ is_run ev = false) new.
Proof.
  revert w. induction l as [|e l IH]; intros w Hknown; cbn [for_each].
  - exists w. repeat split. exists []. now rewrite app_nil_r.
  - unfold bind. rewrite should_download_known by (apply Hknown; now left).
    destruct (IH (record (EvLog Debug ("episode " +:+ quoted_s +:+ " is in history")
                            [e !! "title"]) (record (EvEntry e) w)))
      as (w' & Hrun & Hh & Hf & new & E & Hnew).
    { intros e' He'. cbn [history record]. apply Hknown. now right. }
    exists w'. repeat split; try done.
    exists ([EvEntry e;
             EvLog Debug ("episode " +:+ quoted_s +:+ " is in history") [e !! "title"]]
            ++ new).
    split.
    + rewrite E. cbn [trace record]. now rewrite <- !app_assoc.
    + apply Forall_app. split; [repeat constructor|exact Hnew].
Qed.

(** X12: polling a show whose entries are all in the history changes
    nothing: [check_show] returns, the history and the folders are as
    before, and no page is requested, no file written and the downloader
    not run. *)
Theorem check_show_all_known (show : ShowConfiguration) (w : world) :
  (forall e, In e (feedparser_parse c (trace w) (feed_url show)) ->
             History.is_in_history (history w) (e !! "link") = true) ->
  exists w',
    check_show c show w = (Ok tt, w')
    /\ history w' = history w /\ files w' = files w
    /\ exists new,
         trace w' = trace w ++ new
         /\ Forall (fun ev => is_request ev = false /\ is_write ev = false
                              /\ is_run ev = false) new.
Proof.
  intros Hknown. unfold check_show, bind. cbv zeta.
  destruct (for_each_known show (rev (feedparser_parse c (trace w) (feed_url show)))
              (record (EvFeed (feed_url show)) w))
    as (w' & Hrun & Hh & Hf & new & E & Hnew).
  { intros e He. cbn [history record]. apply Hknown. now apply in_rev. }
  exists w'. repeat split; try done.
  exists (EvFeed (feed_url show) :: new). split.
  - rewrite E. cbn [trace record]. now rewrite <- app_assoc.
  - constructor; [done|exact Hnew].
Qed.

(** X13: a link whose download has succeeded is refused from then on:
    after [download_episode] has run the downloader with exit code 0,
    [should_download] returns [False] for every entry with that link,
    whatever the show and the collaborators. *)
Theorem downloaded_link_is_refused (c' : collaborators) (url : string)
    (d : DownloadConfiguration) (w : world) (name : string)
    (e : entry) (show : ShowConfiguration) :
  find_filename (files w) (now_year c (trace w)) d = Ok name ->
  fst (youtube_dl c (trace w)
         ["youtube-dl"; url; "-o"; folder d +:+ "/" +:+ name +:+ ".%(ext)s"] (files w))
  = Exited 0 ->
  e !! "link" = Some url ->
  fst (should_download c' e show (snd (download_episode c (Some url) d w))) = Ok false.
Proof.
  intros Hname Hexit Hlink.
  assert (Hknown : History.is_in_history
                     (history (snd (download_episode c (Some url) d w)))
                     (e !! "link") = true).
  { unfold download_episode, bind, find_filename_now, try_except. rewrite Hname.
    unfold subprocess_run_check, add_to_history.
    destruct (youtube_dl c (trace w) _ (files w)) as [outcome fs'].
    cbn [fst] in Hexit. subst outcome. cbn. rewrite Hlink.
    unfold History.is_in_history, History.add_to_history.
    apply bool_decide_eq_true. apply elem_of_union_l, elem_of_singleton. reflexivity. }
  unfold should_download, bind, emit, is_in_history, log. cbn [history record].
  rewrite Hknown. reflexivity.
Qed.

(** X14: when [write_nfo] succeeds (prefix free of line breaks), it has
    written one file, named after what [find_filename] returns, and the
    season and episode in the document are the year without century and
    the number in that name; the history is as before. *)
Theorem write_nfo_document (e : entry) (d : DownloadConfiguration) (w w' : world) :
  Py.all_chars (fun x => negb (Ascii.eqb x Py.newline)) (filename d) = true ->
  write_nfo c e d w = (Ok tt, w') ->
  exists n aired,
    1 <= n
    /\ find_filename (files w) (now_year c (trace w)) d
       = Ok (numbered d (season_token (now_year c (trace w))) n)
    /\ trace w'
       = trace w
         ++ [EvWrite
               (path_join (folder d) (numbered d (season_token (now_year c (trace w))) n)
                +:+ ".nfo")
               (nfo_document (e !! "description") (e !! "title") aired
                  (now_year c (trace w) mod 100) n)]
    /\ history w' = history w.
Proof.
  intros Hprefix. unfold write_nfo, bind, find_filename_now.
  destruct (find_filename (files w) (now_year c (trace w)) d) as [name|ex] eqn:Hname;
    [|discriminate].
  assert (Hnum : exists n, 1 <= n
                   /\ name = numbered d (season_token (now_year c (trace w))) n).
  { unfold find_filename in Hname. destruct (files w !! folder d); [|discriminate].
    now apply SequencerFacts.next_filename_numbered in Hname. }
  destruct Hnum as (n & Hn & ->).
  destruct (e !! "published") as [published|]; [|discriminate].
  unfold lift. destruct (strptime_aired c published) as [aired|ex]; [|discriminate].
  destruct (StringFacts.season_token_digits (now_year c (trace w))) as [Hs Hs'].
  destruct (Numerals.format_digits n) as [He He'].
  unfold numbered at 1.
  rewrite SequencerFacts.match_season_episode_generated by done.
  assert (Hyear : Py.int (season_token (now_year c (trace w)))
                  = now_year c (trace w) mod 100) by apply Numerals.int_format.
  rewrite Hyear, Numerals.int_format.
  unfold write_file.
  destruct (os_write c (files w) _ _) as [fs'|ex]; [|discriminate].
  intros [= <-]. exists n, aired. now repeat split.
Qed.

End PipelineFacts2.

(** ** The thumbnail pattern *)

Module Thumbnail.

Import StringFacts.

Lemma strip_prefix_app (lit s : string) : Py.strip_prefix lit (lit +:+ s) = Some s.
Proof.
  induction lit as [|a lit IH]; simpl; [now destruct s|].
  now rewrite Ascii.eqb_refl.
Qed.

Lemma strip_prefix_absent (lit t : string) :
  String.prefix lit t = false -> Py.strip_prefix lit t = None.
Proof.
  revert t. induction lit as [|a lit IH]; intros [|b t]; simpl; try done.
  destruct (ascii_dec a b) as [->|Hne].
  - rewrite Ascii.eqb_refl. apply IH.
  - intros _. now apply Ascii.eqb_neq in Hne as ->.
Qed.

(** Where the literal does not occur, a pattern that starts with it is
    not found. *)
Lemma dotstar_literal_absent {A : Type} (lit : string) (rest : string -> option A)
    (s : string) :
  (forall t, Py.strip_prefix lit t = None -> rest t = None) ->
  Py.contains lit s = false ->
  Py.dotstar rest s = None.
Proof.
  intros Hrest. induction s as [|x s IH]; rewrite contains_unfold.
  - rewrite orb_false_r. intros H. cbn [Py.dotstar]. now apply Hrest, strip_prefix_absent.
  - intros [Hhere Hlater]%orb_false_elim. cbn [Py.dotstar].
    rewrite (IH Hlater). rewrite (Hrest _ (strip_prefix_absent _ _ Hhere)).
    now destruct (Ascii.eqb x Py.newline).
Qed.

Lemma span_app (p : ascii -> bool) (run tl : string) :
  Py.all_chars p run = true ->
  match tl with EmptyString => true | String x _ => negb (p x) end = true ->
  Py.span p (run +:+ tl) = (run, tl).
Proof.
  intros Hrun Htl. induction run as [|x run IH]; simpl in *.
  - destruct tl as [|y tl]; simpl; [reflexivity|].
    now apply negb_true_iff in Htl as ->.
  - apply andb_prop in Hrun as [-> Hrun]. now rewrite IH.
Qed.

Lemma lazy_until_quote_found (g tl : string) :
  Py.all_chars (fun x => negb (Ascii.eqb x Py.dquote) && negb (Ascii.eqb x Py.newline)) g
  = true ->
  Py.lazy_until_quote (g +:+ String Py.dquote tl) = Some g.
Proof.
  induction g as [|x g IH]; [reflexivity|]. cbn [Py.all_chars].
  intros [[Hq Hn]%andb_prop Hg]%andb_prop.
  apply negb_true_iff in Hq, Hn. simpl. now rewrite Hq, Hn, (IH Hg).
Qed.

(** [str] of a bytes object has no line break: the pattern of
    [save_thumb] can run over the whole page. *)
Lemma repr_byte_no_newline (q x : ascii) :
  q = "'"%char \/ q = Py.dquote ->
  Py.all_chars (fun y => negb (Ascii.eqb y Py.newline)) (Bytes.repr_byte q x) = true.
Proof.
  intros [->| ->]; destruct x as [[] [] [] [] [] [] [] []]; vm_compute; reflexivity.
Qed.

Lemma repr_body_no_newline (q : ascii) (b : string) :
  q = "'"%char \/ q = Py.dquote ->
  Py.all_chars (fun y => negb (Ascii.eqb y Py.newline)) (Bytes.repr_body q b) = true.
Proof.
  intros Hq. induction b as [|x b IH]; [reflexivity|].
  cbn [Bytes.repr_body]. now rewrite all_chars_app, repr_byte_no_newline, IH.
Qed.

Lemma repr_no_newline (b : string) :
  Py.all_chars (fun y => negb (Ascii.eqb y Py.newline)) (Bytes.repr b) = true.
Proof.
  unfold Bytes.repr. cbv zeta.
  destruct (Py.contains "'" b && negb (Py.contains (String Py.dquote EmptyString) b));
    cbn [Py.all_chars]; rewrite all_chars_app, repr_body_no_newline by auto;
    reflexivity.
Qed.

Lemma og_literal_eq : Py.og_image_literal = String "<" og_image_rest.
Proof. reflexivity. Qed.

(** The pattern is found at the last place where its opening literal
    stands, if the rest of the pattern matches there. *)
Lemma dotstar_last_literal {A : Type} (x : ascii) (lit tl : string)
    (rest : string -> option A) (r : A) :
  Ascii.eqb x Py.newline = false ->
  Py.all_chars (fun y => negb (Ascii.eqb y x)) lit = true ->
  (forall t, Py.strip_prefix (String x lit) t = None -> rest t = None) ->
  Py.contains (String x lit) tl = false ->
  rest (String x lit +:+ tl) = Some r ->
  Py.dotstar rest (String x lit +:+ tl) = Some r.
Proof.
  intros Hx Hlit Hrest Htl Hhere.
  change (String x lit +:+ tl) with (String x (lit +:+ tl)) in *.
  cbn [Py.dotstar]. rewrite Hx.
  rewrite (dotstar_literal_absent (String x lit)); [exact Hhere|exact Hrest|].
  now rewrite SequencerFacts.contains_skip.
Qed.

End Thumbnail.

(** X15: the thumbnail url.  When the text [save_thumb] matches against
    (the [str] of the page bytes) holds an [og:image] tag with no further
    [og:image] literal after it, the pattern yields the url of that tag:
    the content attribute up to its closing quote. *)
Theorem og_image_of_last_tag (page pre gap url post : string) :
  Bytes.repr page = pre +:+ og_tag gap url +:+ post ->
  Py.nonempty gap = true ->
  Py.all_chars (fun x => negb (Py.is_word x) && negb (Ascii.eqb x "<")) gap = true ->
  Py.nonempty url = true ->
  Py.all_chars (fun x => negb (Ascii.eqb x Py.dquote) && negb (Ascii.eqb x Py.newline)
                         && negb (Ascii.eqb x "<")) url = true ->
  Py.contains Py.og_image_literal post = false ->
  Py.match_og_image (Bytes.repr page) = Some url.
Proof.
  intros Hpage Hgap' Hgap Hurl' Hurl Hpost.
  pose proof (Thumbnail.repr_no_newline page) as Hline.
  rewrite Hpage in *. rewrite StringFacts.all_chars_app in Hline.
  apply andb_prop in Hline as [Hpre _].
  unfold Py.match_og_image. apply Names.dotstar_found; [exact Hpre|].
  unfold og_tag. rewrite !StringFacts.app_assoc.
  rewrite Thumbnail.og_literal_eq in *.
  apply Thumbnail.dotstar_last_literal.
  - reflexivity.
  - reflexivity.
  - intros t Ht. now rewrite Ht.
  - rewrite <- !StringFacts.app_assoc.
    rewrite SequencerFacts.contains_skip; [exact Hpost|].
    rewrite !StringFacts.all_chars_app. repeat (apply andb_true_intro; split);
      try reflexivity.
    + eapply StringFacts.all_chars_impl; [|exact Hgap]. now intros x [_ H]%andb_prop.
    + eapply StringFacts.all_chars_impl; [|exact Hurl]. now intros x [_ H]%andb_prop.
  - rewrite Thumbnail.strip_prefix_app.
    rewrite Thumbnail.span_app; [|
      eapply StringFacts.all_chars_impl; [|exact Hgap]; now intros x [H _]%andb_prop
      |reflexivity].
    destruct gap as [|g0 gap]; [done|].
    rewrite Thumbnail.strip_prefix_app. destruct url as [|u0 url]; [done|].
    cbn [Py.all_chars] in Hurl.
    apply andb_prop in Hurl as [[[_ Hn]%andb_prop _]%andb_prop Hurl].
    apply negb_true_iff in Hn.
    change ((String u0 url +:+ String Py.dquote EmptyString +:+ post))
      with (String u0 (url +:+ String Py.dquote post)).
    cbv iota. rewrite Hn, Thumbnail.lazy_until_quote_found; [reflexivity|].
    eapply StringFacts.all_chars_impl; [|exact Hurl].
    now intros x [H _]%andb_prop.
Qed.

(** X16: a page whose text does not hold the [og:image] literal makes
    [save_thumb] raise [AttributeError] right after the page has been
    requested: the thumbnail url is not requested and no file is written. *)
Theorem save_thumb_without_tag (c : collaborators) (e : entry)
    (d : DownloadConfiguration) (w : world) (name url : string) (html : response) :
  find_filename (files w) (now_year c (trace w)) d = Ok name ->
  e !! "link" = Some url ->
  requests_get c (trace w) url = Ok html ->
  Py.contains Py.og_image_literal (Bytes.repr (content html)) = false ->
  save_thumb c e d w = (Raise AttributeError, record (EvGet (Some url)) w).
Proof.
  intros Hname Hlink Hget Habsent.
  unfold save_thumb, bind, find_filename_now, get. rewrite Hname, Hlink, Hget.
  unfold Py.match_og_image.
  rewrite (Thumbnail.dotstar_literal_absent Py.og_image_literal); [reflexivity| |exact Habsent].
  intros t Ht. now rewrite Ht.
Qed.

(** ** The further properties on the demo world *)

Lemma should_download_regex_rejects_witness :
  should_download Demo.good Demo.ep1 news_show Demo.w0
  = (Ok false,
     record (EvLog Debug ("episode " +:+ quoted_s +:+ " does not fit regex")
               [Demo.ep1 !! "title"])
       (record (EvSearch "News" (Some "Ep1")) (record (EvEntry Demo.ep1) Demo.w0))).
Proof.
  apply (should_download_regex_rejects Demo.good Demo.ep1 news_show Demo.w0
           {| regex := Some "News"; regex_field := Some "title"; min_date := None |}
           "News" "title" "Ep1" (Py.contains "News")).
  - vm_compute. reflexivity.
  - reflexivity.
  - reflexivity.
  - discriminate.
  - reflexivity.
  - discriminate.
  - vm_compute. reflexivity.
  - reflexivity.
  - reflexivity.
Defined.

Lemma should_download_before_min_date_witness :
  (aware {| aware := true; instant := 63866916000 |}
   = aware {| aware := true; instant := 63868780800 |} ->
   (instant {| aware := true; instant := 63866916000 |}
    < instant {| aware := true; instant := 63868780800 |})%Z ->
   should_download Demo.good Demo.ep1 Demo.dated_show Demo.w0
   = (Ok false,
      record (EvLog Debug ("episode " +:+ quoted_s +:+ " is before mindate")
                [Demo.ep1 !! "title"])
        (record (EvParseDate (Some "Wed, 10 Jan 2024 10:00:00 +0000"))
           (record (EvParseDate (Some "Thu, 01 Feb 2024 00:00:00 +0000"))
              (record (EvEntry Demo.ep1) Demo.w0)))))
  /\ (aware {| aware := true; instant := 63866916000 |}
      <> aware {| aware := true; instant := 63868780800 |} ->
      should_download Demo.good Demo.ep1 Demo.dated_show Demo.w0
      = (Raise TypeError,
         record (EvParseDate (Some "Wed, 10 Jan 2024 10:00:00 +0000"))
           (record (EvParseDate (Some "Thu, 01 Feb 2024 00:00:00 +0000"))
              (record (EvEntry Demo.ep1) Demo.w0)))).
Proof.
  apply (should_download_before_min_date Demo.good Demo.ep1 Demo.dated_show Demo.w0
           {| regex := None; regex_field := None;
              min_date := Some "Thu, 01 Feb 2024 00:00:00 +0000" |}
           "Thu, 01 Feb 2024 00:00:00 +0000" "Wed, 10 Jan 2024 10:00:00 +0000"
           {| aware := true; instant := 63868780800 |}
           {| aware := true; instant := 63866916000 |}).
  - vm_compute. reflexivity.
  - reflexivity.
  - reflexivity.
  - reflexivity.
  - discriminate.
  - vm_compute. reflexivity.
  - vm_compute. reflexivity.
  - vm_compute. reflexivity.
Defined.

(** The minimum date on the demo world.  Given with its offset, as the
    dates of the feed are, it refuses the entry of January and lets the
    entry of February pass.  Given as a plain date it refuses nothing and
    accepts nothing: the comparison raises [TypeError] for either entry. *)
Example min_date_time_zone :
  fst (should_download Demo.good Demo.ep1 Demo.dated_show Demo.w0) = Ok false
  /\ fst (should_download Demo.good Demo.ep3 Demo.dated_show Demo.w0) = Ok true
  /\ fst (should_download Demo.good Demo.ep1 Demo.plainly_dated_show Demo.w0)
     = Raise TypeError
  /\ fst (should_download Demo.good Demo.ep3 Demo.plainly_dated_show Demo.w0)
     = Raise TypeError.
Proof. vm_compute. repeat split; reflexivity. Qed.

Lemma should_download_missing_published_witness :
  should_download Demo.good link_only Demo.dated_show Demo.w0
  = (Raise TypeError,
     record (EvParseDate None)
       (record (EvParseDate (Some "Thu, 01 Feb 2024 00:00:00 +0000"))
          (record (EvEntry link_only) Demo.w0))).
Proof.
  apply (should_download_missing_published Demo.good link_only Demo.dated_show Demo.w0
           {| regex := None; regex_field := None;
              min_date := Some "Thu, 01 Feb 2024 00:00:00 +0000" |}
           "Thu, 01 Feb 2024 00:00:00 +0000"
           {| aware := true; instant := 63868780800 |}).
  - vm_compute. reflexivity.
  - reflexivity.
  - reflexivity.
  - reflexivity.
  - discriminate.
  - vm_compute. reflexivity.
  - vm_compute. reflexivity.
Defined.

Lemma should_download_release_decides_witness :
  fst (should_download Demo.bare Demo.ep1 blank_filter_show Demo.w0)
  = match requests_get Demo.bare (trace Demo.w0 ++ [EvEntry Demo.ep1]) "https://x/1" with
    | Ok page => Ok (Py.contains "verfügbar bis" (text page))
    | Raise ex => Raise ex
    end.
Proof.
  apply (should_download_release_decides Demo.bare Demo.ep1 blank_filter_show Demo.w0
           {| regex := None; regex_field := None; min_date := None |} "https://x/1").
  - vm_compute. reflexivity.
  - reflexivity.
  - reflexivity.
  - reflexivity.
  - vm_compute. reflexivity.
Defined.

(** The same entry and the same blank filter block: refused while the page
    lacks the marker, accepted once it holds it; without the filter block
    the page is not looked at. *)
Example blank_filter_gates :
  fst (should_download Demo.bare Demo.ep1 blank_filter_show Demo.w0) = Ok false
  /\ fst (should_download Demo.good Demo.ep1 blank_filter_show Demo.w0) = Ok true
  /\ fst (should_download Demo.bare Demo.ep1 Demo.show Demo.w0) = Ok true.
Proof. vm_compute. repeat split; reflexivity. Qed.

Lemma check_show_all_known_witness :
  exists w',
    check_show Demo.single Demo.show Demo.known_world = (Ok tt, w')
    /\ history w' = history Demo.known_world /\ files w' = files Demo.known_world
    /\ exists new,
         trace w' = trace Demo.known_world ++ new
         /\ Forall (fun ev => is_request ev = false /\ is_write ev = false
                              /\ is_run ev = false) new.
Proof.
  apply (check_show_all_known Demo.single Demo.show Demo.known_world).
  intros e He. vm_compute in He. destruct He as [<-|[]]. vm_compute. reflexivity.
Defined.

Lemma downloaded_link_is_refused_witness :
  fst (should_download Demo.bare Demo.ep1 Demo.show
         (snd (download_episode Demo.good (Some "https://x/1") demo Demo.w0)))
  = Ok false.
Proof.
  apply (downloaded_link_is_refused Demo.good Demo.bare "https://x/1" demo Demo.w0
           "Demo S24E01" Demo.ep1 Demo.show).
  - vm_compute. reflexivity.
  - vm_compute. reflexivity.
  - vm_compute. reflexivity.
Defined.

Lemma write_nfo_document_witness :
  exists n aired,
    1 <= n
    /\ find_filename (files Demo.w0) (now_year Demo.good (trace Demo.w0)) demo
       = Ok (numbered demo (season_token (now_year Demo.good (trace Demo.w0))) n)
    /\ trace (snd (write_nfo Demo.good Demo.ep1 demo Demo.w0))
       = trace Demo.w0
         ++ [EvWrite
               (path_join (folder demo)
                  (numbered demo (season_token (now_year Demo.good (trace Demo.w0))) n)
                +:+ ".nfo")
               (nfo_document (Demo.ep1 !! "description") (Demo.ep1 !! "title") aired
                  (now_year Demo.good (trace Demo.w0) mod 100) n)]
    /\ history (snd (write_nfo Demo.good Demo.ep1 demo Demo.w0)) = history Demo.w0.
Proof.
  apply (write_nfo_document Demo.good Demo.ep1 demo Demo.w0
           (snd (write_nfo Demo.good Demo.ep1 demo Demo.w0))).
  - reflexivity.
  - vm_compute. reflexivity.
Defined.

(** The document of the first episode of the demo show. *)
Example nfo_document_ex :
  List.filter is_write (trace (snd (write_nfo Demo.good Demo.ep1 demo Demo.w0)))
  = [EvWrite "dl/Demo S24E01.nfo"
       (nfo_document None (Some "Ep1") "2024-01-10" 24 1)].
Proof. vm_compute. reflexivity. Qed.

Lemma og_image_of_last_tag_witness :
  Py.match_og_image (Bytes.repr Demo.page) = Some "https://x/1.jpg".
Proof.
  apply (og_image_of_last_tag Demo.page "b'<html>" " " "https://x/1.jpg"
           ">verf\xc3\xbcgbar bis 2025</html>'").
  - vm_compute. reflexivity.
  - reflexivity.
  - reflexivity.
  - reflexivity.
  - reflexivity.
  - vm_compute. reflexivity.
Defined.

Lemma save_thumb_without_tag_witness :
  save_thumb Demo.bare Demo.ep1 demo Demo.w0
  = (Raise AttributeError, record (EvGet (Some "https://x/1")) Demo.w0).
Proof.
  apply (save_thumb_without_tag Demo.bare Demo.ep1 demo Demo.w0 "Demo S24E01"
           "https://x/1" {| text := Demo.bare_page; content := Demo.bare_page |}).
  - vm_compute. reflexivity.
  - vm_compute. reflexivity.
  - reflexivity.
  - vm_compute. reflexivity.
Defined.
